(** * Shallow embedding of src/src/platform-aws.c (AWS platform support of
    the OFI network plugin) and proofs of its specification claims.

    Build configuration modelled: HAVE_CUDA is set and every
    [HAVE_DECL_FI_OPT_EFA_*] / [HAVE_DECL_FI_OPT_MAX_MSG_SIZE] option is
    declared.  C strings are Rocq [string]s (lists of [ascii]); where the C
    code uses [strcmp]/[strlen] the string is cut at its first NUL byte
    ([c_str]).  Negative errno values are [Z]s as in the C code. *)

From Stdlib Require Import ZArith Lia Ascii String Bool.
From stdpp Require Import base list strings gmap.

Local Open Scope Z_scope.

(* ------------------------------------------------------------------ *)
(** ** C string helpers *)

(** The C string seen by [strcmp]/[strlen]: everything before the first
    NUL byte. *)
Fixpoint c_str (s : string) : string :=
  match s with
  | EmptyString => EmptyString
  | String c r => if Ascii.eqb c "000"%char then EmptyString else String c (c_str r)
  end.

Definition strlen (s : string) : nat := String.length (c_str s).

(** [strcmp a b == 0] *)
Definition strcmp_eq (a b : string) : bool := String.eqb (c_str a) (c_str b).

Definition ascii_tolower (c : ascii) : ascii :=
  let n := nat_of_ascii c in
  if (65 <=? n)%nat && (n <=? 90)%nat then ascii_of_nat (n + 32) else c.

Fixpoint str_tolower (s : string) : string :=
  match s with
  | EmptyString => EmptyString
  | String c r => String (ascii_tolower c) (str_tolower r)
  end.

(** [strcasecmp a b == 0] *)
Definition strcasecmp_eq (a b : string) : bool :=
  String.eqb (str_tolower (c_str a)) (str_tolower (c_str b)).

(** errno values (Linux) used by the file. *)
Definition EIO : Z := 5.
Definition EINVAL : Z := 22.
Definition ENOMEM : Z := 12.
Definition ENOPROTOOPT : Z := 92.
Definition EOPNOTSUPP : Z := 95.
Definition ENOTSUP : Z := 95.
Definition FI_EOPNOTSUPP : Z := EOPNOTSUPP.
Definition FI_ENOPROTOOPT : Z := ENOPROTOOPT.

(* ------------------------------------------------------------------ *)
(** ** The platform table [platform_data_map] *)

(** [struct ec2_platform_data].  The [float latency] field only ever holds
    whole numbers in the table (75.0, 150.0, or 0.0 by zero
    initialisation), so it is kept as a [Z] number of microseconds.
    Fields left out of a C initialiser are zero / NULL. *)
Record ec2_platform_data := {
  name : string;
  topology : option string;
  default_dup_conns : Z;
  latency : Z;
  gdr_required : bool;
  net_flush_required : bool;
  default_protocol : string;
  pd_domain_per_thread : Z
}.

Definition platform_data_map : list ec2_platform_data := [
  {| name := "p4d.24xlarge"; topology := Some "p4d-24xl-topo.xml";
     default_dup_conns := 0; latency := 75; gdr_required := true;
     net_flush_required := true; default_protocol := "SENDRECV";
     pd_domain_per_thread := 0 |};
  {| name := "p4de.24xlarge"; topology := Some "p4de-24xl-topo.xml";
     default_dup_conns := 0; latency := 75; gdr_required := true;
     net_flush_required := true; default_protocol := "SENDRECV";
     pd_domain_per_thread := 0 |};
  {| name := "p3dn.24xlarge"; topology := None;
     default_dup_conns := 4; latency := 150; gdr_required := false;
     net_flush_required := true; default_protocol := "SENDRECV";
     pd_domain_per_thread := 0 |};
  {| name := "p5.48xlarge"; topology := Some "p5.48xl-topo.xml";
     default_dup_conns := 0; latency := 75; gdr_required := true;
     net_flush_required := false; default_protocol := "RDMA";
     pd_domain_per_thread := 0 |};
  {| name := "g5.48xlarge"; topology := Some "g5.48xl-topo.xml";
     default_dup_conns := 0; latency := 0; gdr_required := false;
     net_flush_required := true; default_protocol := "SENDRECV";
     pd_domain_per_thread := 0 |};
  {| name := "trn1.32xlarge"; topology := None;
     default_dup_conns := 0; latency := 0; gdr_required := true;
     net_flush_required := true; default_protocol := "SENDRECV";
     pd_domain_per_thread := 1 |};
  {| name := "trn1n.32xlarge"; topology := None;
     default_dup_conns := 0; latency := 0; gdr_required := true;
     net_flush_required := true; default_protocol := "SENDRECV";
     pd_domain_per_thread := 1 |}
]%string.

(* ------------------------------------------------------------------ *)
(** ** [get_platform_type] *)

(** What the first call observes of the outside world: the contents of
    /sys/devices/virtual/dmi/id/product_name ([None] when [fopen] fails),
    whether reading hits an I/O error where the contents end (instead of
    end of file), and whether the initial [malloc] succeeds.  A failing
    [realloc] is not modelled (the C code does not check it). *)
Record pt_input := {
  product_name : option string;
  read_error : bool;
  alloc_ok : bool
}.

(** [(char)EOF]: the byte [fgetc]'s [EOF] becomes once stored in [char ch]. *)
Definition EOF_char : ascii := "255"%char.

(** The loop
    [while (!feof(fd) && !ferror(fd) && (ch = fgetc(fd)) != '\n')
       platform_type[len++] = ch;]
    on a file whose remaining bytes are [s]: the result is the bytes
    stored and whether [ferror] is set afterwards.  When the file ends
    before a newline, [fgetc] returns [EOF], which is stored too; only then
    does [feof] (or [ferror]) become true. *)
Fixpoint read_first_line (s : string) (err : bool) : string * bool :=
  match s with
  | EmptyString => (String EOF_char EmptyString, err)
  | String c r =>
      if Ascii.eqb c "010"%char then (EmptyString, false)
      else let '(l, e) := read_first_line r err in (String c l, e)
  end.

(** The statics [init] and [platform_type]. *)
Record pt_cache := {
  pt_init : bool;
  platform_type : option string
}.

Definition pt_cache0 : pt_cache := {| pt_init := false; platform_type := None |}.

(** One call: new statics, returned value, and whether the file system was
    touched ([fopen] called). *)
Definition get_platform_type (inp : pt_input) (c : pt_cache)
  : pt_cache * option string * bool :=
  if pt_init c then (c, platform_type c, false)
  else
    match product_name inp with
    | None => ({| pt_init := true; platform_type := None |}, None, true)
    | Some contents =>
        if negb (alloc_ok inp)
        then ({| pt_init := true; platform_type := None |}, None, true)
        else
          let '(line, ferr) := read_first_line contents (read_error inp) in
          if ferr
          then ({| pt_init := true; platform_type := None |}, None, true)
          else ({| pt_init := true; platform_type := Some line |}, Some line, true)
    end.

(* ------------------------------------------------------------------ *)
(** ** [get_platform_data] *)

(** The scan [for (idx...) if (strcmp(platform_type, map[idx].name) == 0)
    platform_data = &map[idx];] over the whole table; the pointer into the
    table is represented by the entry's index. *)
Fixpoint scan_table (tbl : list ec2_platform_data) (t : string) (idx : nat)
  (acc : option nat) : option nat :=
  match tbl with
  | [] => acc
  | e :: r => scan_table r t (S idx) (if strcmp_eq t (name e) then Some idx else acc)
  end.

(** The statics [init] and [platform_data]. *)
Record pd_cache := {
  pd_init : bool;
  platform_data : option nat
}.

Definition pd_cache0 : pd_cache := {| pd_init := false; platform_data := None |}.

(** [get_platform_data] over a table [tbl]; the C function is
    [get_platform_data_tbl platform_data_map]. *)
Definition get_platform_data_tbl (tbl : list ec2_platform_data) (inp : pt_input)
  (c : pt_cache) (d : pd_cache) : pt_cache * pd_cache * option nat :=
  if pd_init d then (c, d, platform_data d)
  else
    let '(c', t, _) := get_platform_type inp c in
    match t with
    | None => (c', {| pd_init := true; platform_data := platform_data d |}, None)
    | Some ty =>
        let r := scan_table tbl ty 0 (platform_data d) in
        (c', {| pd_init := true; platform_data := r |}, r)
    end.

Definition get_platform_data := get_platform_data_tbl platform_data_map.

(* ------------------------------------------------------------------ *)
(** ** [get_rail_vf_idx] *)

(** [fgets(buf, n, fp)] on a file whose bytes are [s]: at most [n - 1]
    bytes, stopping after a newline (which is kept); [NULL] when the file
    is empty (end of file before any byte).  Read errors are not modelled. *)
Fixpoint fgets_read (k : nat) (s : string) : string :=
  match k, s with
  | O, _ => EmptyString
  | _, EmptyString => EmptyString
  | S k', String c r =>
      if Ascii.eqb c "010"%char then String c EmptyString
      else String c (fgets_read k' r)
  end.

Definition fgets (n : nat) (s : string) : option string :=
  match s with
  | EmptyString => None
  | _ => Some (fgets_read (n - 1) s)
  end.

(** [isspace] in the C locale. *)
Definition c_isspace (c : ascii) : bool :=
  let n := nat_of_ascii c in
  (n =? 32)%nat || ((9 <=? n)%nat && (n <=? 13)%nat).

Definition c_digit10 (c : ascii) : option Z :=
  let n := nat_of_ascii c in
  if (48 <=? n)%nat && (n <=? 57)%nat then Some (Z.of_nat n - 48) else None.

Fixpoint skip_space (s : string) : nat * string :=
  match s with
  | String c r => if c_isspace c then let '(k, r') := skip_space r in (S k, r') else (O, s)
  | EmptyString => (O, EmptyString)
  end.

(** Decimal digits: accumulated value and number of digits read. *)
Fixpoint read_digits10 (s : string) (acc : Z) : Z * nat :=
  match s with
  | String c r =>
      match c_digit10 c with
      | Some d => let '(v, k) := read_digits10 r (acc * 10 + d) in (v, S k)
      | None => (acc, O)
      end
  | EmptyString => (acc, O)
  end.

(** [strtol(s, &endptr, 10)]: the value and [endptr - s].  Leading
    white space and one sign are accepted; without any digit [endptr] is
    [s] and the value is 0.  Saturation at [LONG_MIN]/[LONG_MAX] is left
    out: the file only converts two-character strings. *)
Definition strtol10 (s : string) : Z * nat :=
  let '(w, s1) := skip_space s in
  let '(neg, sl, s2) :=
    match s1 with
    | String c r =>
        if Ascii.eqb c "-"%char then (true, 1%nat, r)
        else if Ascii.eqb c "+"%char then (false, 1%nat, r)
        else (false, 0%nat, s1)
    | EmptyString => (false, 0%nat, s1)
    end in
  let '(v, k) := read_digits10 s2 0 in
  if (k =? 0)%nat then (0, O) else ((if neg then - v else v), (w + sl + k)%nat).

(** A descriptor of the [fi_info] list: its identity (the node's address)
    and [info->nic->device_attr->name]. *)
Record fi_info := {
  info_id : nat;
  dev_name : string
}.

(** The file system as seen through
    [/sys/class/infiniband/<device>/node_guid]: its contents, or [None]
    when [fopen] fails. *)
Definition guid_fs := string -> option string.

Definition get_rail_vf_idx (fs : guid_fs) (info : fi_info) : Z :=
  match fs (dev_name info) with
  | None => - EIO
  | Some contents =>
      match fgets 20 contents with
      | None => - EIO
      | Some guid =>
          if negb (strlen guid =? 19)%nat then - EINVAL
          else if negb (match String.get 14 (c_str guid) with
                        | Some c => Ascii.eqb c ":"%char
                        | None => false
                        end) then - EINVAL
          else
            let '(vf_idx, used) := strtol10 (String.substring 17 2 (c_str guid)) in
            if negb (used =? 2)%nat then - EINVAL
            else vf_idx
      end
  end.

(* ------------------------------------------------------------------ *)
(** ** [platform_sort_rails] *)

(** How the assignment loop ends: [goto error], a read or write of
    [sorted_info_array] past its [num_rails] entries (undefined behaviour),
    or normal exit with the filled array. *)
Inductive sort_loop_res :=
| SortFailed
| SortOutOfBounds
| SortFilled (arr : list (option fi_info)).

(** [for (i = 0; i < num_rails; ++i)] with [k] iterations left, the
    unvisited rest [l] of the input list, [rail_map] and
    [sorted_info_array]. *)
Fixpoint sort_loop (fs : guid_fs) (k : nat) (l : list fi_info) (rail_map : list Z)
  (arr : list (option fi_info)) : sort_loop_res :=
  match k with
  | O => SortFilled arr
  | S k' =>
      match l with
      | [] => SortFailed
      | info :: rest =>
          let vf_idx := get_rail_vf_idx fs info in
          if (vf_idx <? 0) || (vf_idx >=? 2) then SortFailed
          else
            match rail_map !! Z.to_nat vf_idx with
            | None => SortOutOfBounds
            | Some rail_idx =>
                let rail_map' := <[Z.to_nat vf_idx := rail_idx + 1]> rail_map in
                match arr !! Z.to_nat rail_idx with
                | None => SortOutOfBounds
                | Some (Some _) => SortFailed
                | Some None =>
                    sort_loop fs k' rest rail_map' (<[Z.to_nat rail_idx := Some info]> arr)
                end
            end
      end
  end.

(** The relinking loop: the new list is [sorted_info_array[0..num_rails)];
    an empty slot trips [assert(sorted_info_array[i])]. *)
Fixpoint link_sorted (arr : list (option fi_info)) : option (list fi_info) :=
  match arr with
  | [] => Some []
  | Some i :: r => match link_sorted r with Some l => Some (i :: l) | None => None end
  | None :: _ => None
  end.

Definition sort_rails_core (fs : guid_fs) (l : list fi_info) (num_rails : Z) : sort_loop_res :=
  sort_loop fs (Z.to_nat num_rails) l [0; 2] (replicate (Z.to_nat num_rails) None).

(** [platform_sort_rails(&info_list, num_rails)]: the list the caller sees
    through [*info_list] afterwards ([None]: undefined behaviour).  The C
    function returns [void]. *)
Definition platform_sort_rails (fs : guid_fs) (l : list fi_info) (num_rails : Z)
  : option (list fi_info) :=
  if num_rails <=? 0 then Some l
  else
    match sort_rails_core fs l num_rails with
    | SortFailed => Some l
    | SortOutOfBounds => None
    | SortFilled arr => link_sorted arr
    end.

(* ------------------------------------------------------------------ *)
(** ** [platform_config_endpoint] *)

(** What a call reads that stays fixed for a transport domain: the
    provider of [info], the parameters and globals consulted, and the
    memoised results of [get_platform_data()] and [get_platform_type()]
    (see [get_platform_type] above; after the first call they are
    constants). *)
Record ep_domain := {
  prov_name : string;                      (* info->fabric_attr->prov_name *)
  disable_gdr_required_check : Z;          (* ofi_nccl_disable_gdr_required_check() *)
  ep_platform_data : option ec2_platform_data;  (* get_platform_data() *)
  support_gdr_supported : bool;            (* support_gdr == GDR_SUPPORTED *)
  selected_protocol : string;              (* nccl_ofi_selected_protocol *)
  disable_native_rdma_check : Z;           (* ofi_nccl_disable_native_rdma_check() *)
  ep_platform_type : option string         (* get_platform_type() *)
}.

(** What a call observes of its endpoint and of the C library. *)
Record ep_obs := {
  endpoint_is_null : bool;
  (** [fi_getopt(FI_OPT_EFA_EMULATED_WRITE)]: return code, whether
      [optlen == sizeof(bool)], and [optval] *)
  emulated_write_getopt : Z * bool * bool;
  inorder_setopt_rc : Z;    (* fi_setopt(..._IN_ORDER_ALIGNED_128_BYTES) *)
  max_msg_setopt_rc : Z;    (* fi_setopt(FI_OPT_MAX_MSG_SIZE) *)
  proto_setenv_ok : bool    (* setenv("NCCL_PROTO", "simple", 0) succeeds *)
}.

(** The statics [nccl_proto_configured] and [need_ordering], and the
    environment variable [NCCL_PROTO] (written by [configure_nccl_proto]). *)
Record neg_state := {
  nccl_proto_configured : bool;
  need_ordering : bool;
  env_nccl_proto : option string
}.

Inductive inorder_opt :=
| FI_OPT_EFA_SENDRECV_IN_ORDER_ALIGNED_128_BYTES
| FI_OPT_EFA_WRITE_IN_ORDER_ALIGNED_128_BYTES.

(** Transport calls made and the ordering-mismatch warning. *)
Inductive ep_event :=
| Ev_getopt_emulated_write
| Ev_setopt_inorder (opt : inorder_opt)
| Ev_setenv_nccl_proto
| Ev_setopt_max_msg_size
| Ev_warn_ordering_mismatch.

Definition validate_rdma_write (g : Z * bool * bool) : Z :=
  let '(rc, optlen_ok, optval) := g in
  if negb (rc =? 0) then rc
  else if negb optlen_ok then - EINVAL
  else if optval then - EINVAL
  else 0.

(** [configure_ep_inorder]: return code and [*have_ordering]. *)
Definition configure_ep_inorder (rc : Z) : Z * bool :=
  if (rc =? - FI_EOPNOTSUPP) || (rc =? - FI_ENOPROTOOPT) then (0, false)
  else if negb (rc =? 0) then (rc, false)
  else (0, true).

Definition configure_ep_max_msg_size (rc : Z) : Z :=
  if (rc =? - FI_EOPNOTSUPP) || (rc =? - FI_ENOPROTOOPT) then 0 else rc.

(** [configure_nccl_proto]: return code, new [NCCL_PROTO], calls made.
    A failing [setenv] sets [errno] to [ENOMEM]. *)
Definition configure_nccl_proto (env : option string) (setenv_ok : bool)
  : Z * option string * list ep_event :=
  match env with
  | None =>
      if setenv_ok then (0, Some "simple"%string, [Ev_setenv_nccl_proto])
      else (- ENOMEM, None, [Ev_setenv_nccl_proto])
  | Some _ => (0, env, [])
  end.

Definition gdr_check_fails (d : ep_domain) : bool :=
  (disable_gdr_required_check d =? 0) &&
  match ep_platform_data d with
  | Some p => gdr_required p && negb (support_gdr_supported d)
  | None => false
  end.

(** The [optname] chosen from the selected protocol ([None]: unknown
    transport). *)
Definition proto_optname (proto : string) : option inorder_opt :=
  if strcasecmp_eq "SENDRECV" proto then Some FI_OPT_EFA_SENDRECV_IN_ORDER_ALIGNED_128_BYTES
  else if strcasecmp_eq "RDMA" proto then Some FI_OPT_EFA_WRITE_IN_ORDER_ALIGNED_128_BYTES
  else None.

(** The P5 test [NULL == getenv("NCCL_PROTO") && RDMA &&
    0 == strcmp(get_platform_type(), "p5.48xlarge")], evaluated left to
    right; [None] when [strcmp] is handed a NULL platform type. *)
Definition p5_rdma_skip (d : ep_domain) (s : neg_state) : option bool :=
  match env_nccl_proto s with
  | Some _ => Some false
  | None =>
      if strcasecmp_eq "RDMA" (selected_protocol d) then
        match ep_platform_type d with
        | None => None
        | Some t => Some (strcmp_eq t "p5.48xlarge")
        end
      else Some false
  end.

(** The part under [mutex], up to [unlock]: return code, state, calls. *)
Definition negotiate (opt : inorder_opt) (o : ep_obs) (s : neg_state)
  : Z * neg_state * list ep_event :=
  if need_ordering s || negb (nccl_proto_configured s) then
    let '(r, have_ordering) := configure_ep_inorder (inorder_setopt_rc o) in
    let lg := [Ev_setopt_inorder opt] in
    if negb (r =? 0) then (r, s, lg)
    else if need_ordering s && negb have_ordering then
      (- ENOTSUP, s, lg ++ [Ev_warn_ordering_mismatch])
    else if negb (nccl_proto_configured s) then
      let s2 := {| nccl_proto_configured := true; need_ordering := have_ordering;
                   env_nccl_proto := env_nccl_proto s |} in
      if negb have_ordering then
        let '(pr, env', plg) := configure_nccl_proto (env_nccl_proto s2) (proto_setenv_ok o) in
        let s3 := {| nccl_proto_configured := true; need_ordering := have_ordering;
                     env_nccl_proto := env' |} in
        if negb (pr =? 0) then (- ENOTSUP, s3, lg ++ plg) else (0, s3, lg ++ plg)
      else (0, s2, lg)
    else (0, s, lg)
  else (0, s, []).

(** [platform_config_endpoint(info, endpoint)]: [None] is undefined
    behaviour ([strcmp] on a NULL platform type); otherwise the return
    code, the new state and the calls made. *)
Definition platform_config_endpoint (d : ep_domain) (o : ep_obs) (s : neg_state)
  : option (Z * neg_state * list ep_event) :=
  if endpoint_is_null o then Some (- EINVAL, s, [])
  else if negb (strcmp_eq (prov_name d) "efa") then Some (0, s, [])
  else if gdr_check_fails d then Some (- EINVAL, s, [])
  else
    let is_rdma := strcasecmp_eq "RDMA" (selected_protocol d) in
    let '(vret, lg0) :=
      if is_rdma && (disable_native_rdma_check d =? 0)
      then (validate_rdma_write (emulated_write_getopt o), [Ev_getopt_emulated_write])
      else (0, []) in
    if negb (vret =? 0) then Some (vret, s, lg0)
    else
      match proto_optname (selected_protocol d) with
      | None => Some (- EINVAL, s, lg0)
      | Some opt =>
          match p5_rdma_skip d s with
          | None => None
          | Some skip =>
              let s1 :=
                if skip && negb (nccl_proto_configured s)
                then {| nccl_proto_configured := true; need_ordering := false;
                        env_nccl_proto := env_nccl_proto s |}
                else s in
              let '(r, s', lg1) := negotiate opt o s1 in
              if negb (r =? 0) then Some (r, s', lg0 ++ lg1)
              else if is_rdma then
                Some (configure_ep_max_msg_size (max_msg_setopt_rc o), s',
                      lg0 ++ lg1 ++ [Ev_setopt_max_msg_size])
              else Some (0, s', lg0 ++ lg1)
          end
      end.

(** A sequence of calls on one domain: each call's return code, state
    afterwards and calls made; [None] if a call is undefined. *)
Fixpoint run_config_endpoint (d : ep_domain) (os : list ep_obs) (s : neg_state)
  : option (list (Z * neg_state * list ep_event)) :=
  match os with
  | [] => Some []
  | o :: r =>
      match platform_config_endpoint d o s with
      | None => None
      | Some (ret, s', lg) =>
          match run_config_endpoint d r s' with
          | None => None
          | Some outs => Some ((ret, s', lg) :: outs)
          end
      end
  end.

(* ------------------------------------------------------------------ *)
(** ** [platform_init] *)

(** Inputs of [platform_init]: the libfabric version, the
    [ncclGetVersion] symbol ([None]: not found by [dlsym]; otherwise
    whether it returns [ncclSuccess], and the version), the memoised
    [get_platform_data()], [XML_DIR] and the plugin parameters it reads. *)
Record init_input := {
  fi_major : Z;
  fi_minor : Z;
  nccl_get_version : option (bool * Z);
  init_platform_data : option ec2_platform_data;
  xml_dir : string;
  p_net_latency : Z;               (* ofi_nccl_net_latency() *)
  p_protocol : option string;      (* ofi_nccl_protocol() *)
  p_domain_per_thread : Z          (* ofi_nccl_domain_per_thread() *)
}.

(** The state [platform_init] reads and writes: the process environment,
    [*provider_filter], and the globals [nic_dup_conns], [net_latency]
    (a whole number of microseconds, as in the table),
    [nccl_ofi_selected_protocol] and [domain_per_thread]. *)
Record init_state := {
  env : gmap string string;
  provider_filter : option string;
  nic_dup_conns : Z;
  net_latency : Z;
  nccl_ofi_selected_protocol : string;
  domain_per_thread : Z
}.

(** [setenv(name, value, overwrite)]; it is taken to succeed (the names
    and values are valid, so only [ENOMEM] could make it fail).  The paths
    where a failing [setenv] makes [configure_nvls_option] or
    [platform_init] return [-errno] are therefore not modelled: what is
    proved below of [platform_init] either concerns a call that returns 0
    (no [setenv] failed) or holds on those paths too, since a failing
    [setenv] changes no variable. *)
Definition setenv (name value : string) (overwrite : bool)
  (e : gmap string string) : gmap string string :=
  if overwrite then <[name := value]> e
  else match e !! name with
       | Some _ => e
       | None => <[name := value]> e
       end.

Definition PATH_MAX : nat := 4096.

Definition configure_nvls_option (i : init_input) (e : gmap string string)
  : Z * gmap string string :=
  match e !! "NCCL_NVLS_ENABLE"%string with
  | Some _ => (0, e)
  | None =>
      match nccl_get_version i with
      | None => (0, e)
      | Some (false, _) => (- ENOTSUP, e)
      | Some (true, version) =>
          if version <? 21805 then (0, setenv "NCCL_NVLS_ENABLE" "0" true e)
          else (0, e)
      end
  end.

Definition set_env (st : init_state) (e : gmap string string) : init_state :=
  {| env := e; provider_filter := provider_filter st; nic_dup_conns := nic_dup_conns st;
     net_latency := net_latency st;
     nccl_ofi_selected_protocol := nccl_ofi_selected_protocol st;
     domain_per_thread := domain_per_thread st |}.

(** The steps after the topology file: duplicate connections, latency,
    protocol and domain-per-thread. *)
Definition init_defaults (i : init_input) (select_efa : bool) (st : init_state) : init_state :=
  let pd := init_platform_data i in
  let dup :=
    match pd with
    | Some p => if nic_dup_conns st =? 0 then default_dup_conns p else nic_dup_conns st
    | None => nic_dup_conns st
    end in
  let lat :=
    if p_net_latency i <? 0 then
      match pd with
      | Some p => if latency p >=? 0 then latency p else 150
      | None => 150
      end
    else net_latency st in
  let proto :=
    match pd, p_protocol i with
    | Some p, None => if select_efa then default_protocol p else nccl_ofi_selected_protocol st
    | _, _ => nccl_ofi_selected_protocol st
    end in
  let dpt :=
    if p_domain_per_thread i =? -1 then
      match pd with Some p => pd_domain_per_thread p | None => 0 end
    else p_domain_per_thread i in
  {| env := env st; provider_filter := provider_filter st; nic_dup_conns := dup;
     net_latency := lat; nccl_ofi_selected_protocol := proto; domain_per_thread := dpt |}.

Definition fork_safe_var_name (i : init_input) : string :=
  if (fi_major i >? 1) || ((fi_major i =? 1) && (fi_minor i >=? 13))
  then "FI_EFA_FORK_SAFE"%string else "RDMAV_FORK_SAFE"%string.

(** [if (!getenv(fork_safe_var_name)) setenv(fork_safe_var_name, "1", 1);] *)
Definition set_fork_safe (i : init_input) (e : gmap string string) : gmap string string :=
  match e !! fork_safe_var_name i with
  | None => setenv (fork_safe_var_name i) "1" true e
  | Some _ => e
  end.

(** [NCCL_NET_FORCE_FLUSH=0] for platforms that need no flush, unless set. *)
Definition set_force_flush (pd : option ec2_platform_data) (e : gmap string string)
  : gmap string string :=
  match pd with
  | Some p =>
      if negb (net_flush_required p) then
        match e !! "NCCL_NET_FORCE_FLUSH"%string with
        | None => setenv "NCCL_NET_FORCE_FLUSH" "0" false e
        | Some _ => e
        end
      else e
  | None => e
  end.

Definition set_chunk_sizes (e : gmap string string) : gmap string string :=
  setenv "NCCL_NVLS_CHUNKSIZE" "524288" false
    (setenv "NCCL_NVLSTREE_MAX_CHUNKSIZE" "524288" false e).

(** The [NCCL_TOPO_FILE] step: return code and environment. *)
Definition set_topology (i : init_input) (e : gmap string string) : Z * gmap string string :=
  match e !! "NCCL_TOPO_FILE"%string with
  | Some _ => (0, e)
  | None =>
      match init_platform_data i with
      | Some p =>
          match topology p with
          | Some t =>
              let topology_path := String.append (xml_dir i) (String.append "/" t) in
              if (PATH_MAX <=? String.length topology_path)%nat then (- ENOMEM, e)
              else (0, setenv "NCCL_TOPO_FILE" topology_path true e)
          | None => (0, e)
          end
      | None => (0, e)
      end
  end.

(** [platform_init(provider_filter)]: return code and the state at
    [exit:] (the steps already done are kept on error). *)
Definition platform_init (i : init_input) (st : init_state) : Z * init_state :=
  let '(pf, select_efa) :=
    match env st !! "FI_PROVIDER"%string with
    | None => (Some "efa"%string, true)
    | Some p => (provider_filter st, strcmp_eq p "efa")
    end in
  let st0 := {| env := env st; provider_filter := pf; nic_dup_conns := nic_dup_conns st;
                net_latency := net_latency st;
                nccl_ofi_selected_protocol := nccl_ofi_selected_protocol st;
                domain_per_thread := domain_per_thread st |} in
  let e1 := set_fork_safe i (env st0) in
  let '(rn, e2) := configure_nvls_option i e1 in
  if negb (rn =? 0) then (rn, set_env st0 e2)
  else
    let e5 := set_chunk_sizes (set_force_flush (init_platform_data i) e2) in
    let '(rt, e6) := set_topology i e5 in
    if negb (rt =? 0) then (rt, set_env st0 e6)
    else (0, init_defaults i select_efa (set_env st0 e6)).

(** Several calls of [get_platform_data] in a row, each with its own view
    of the outside world: the values returned. *)
Fixpoint run_get_platform_data (tbl : list ec2_platform_data) (inps : list pt_input)
  (c : pt_cache) (d : pd_cache) : list (option nat) :=
  match inps with
  | [] => []
  | inp :: r =>
      let '(c', d', res) := get_platform_data_tbl tbl inp c d in
      res :: run_get_platform_data tbl r c' d'
  end.

(** Several calls of [get_platform_type]: returned values and whether each
    touched the file system. *)
Fixpoint run_get_platform_type (inps : list pt_input) (c : pt_cache)
  : list (option string * bool) :=
  match inps with
  | [] => []
  | inp :: r =>
      let '(c', res, touched) := get_platform_type inp c in
      (res, touched) :: run_get_platform_type r c'
  end.

(* ================================================================== *)
(** * Proofs *)

(** ** Identity cache and catalogue lookup *)

Lemma get_platform_type_sets_init (inp : pt_input) (c : pt_cache) :
  pt_init (fst (fst (get_platform_type inp c))) = true.
Proof.
  unfold get_platform_type. destruct (pt_init c) eqn:Hi; [exact Hi|].
  destruct (product_name inp) as [contents|]; [|reflexivity].
  destruct (alloc_ok inp); [|reflexivity].
  destruct (read_first_line contents (read_error inp)) as [line ferr].
  destruct ferr; reflexivity.
Qed.

Lemma get_platform_type_result (inp : pt_input) (c : pt_cache) :
  snd (fst (get_platform_type inp c)) = platform_type (fst (fst (get_platform_type inp c))).
Proof.
  unfold get_platform_type. destruct (pt_init c); [reflexivity|].
  destruct (product_name inp) as [contents|]; [|reflexivity].
  destruct (alloc_ok inp); [|reflexivity].
  destruct (read_first_line contents (read_error inp)) as [line ferr].
  destruct ferr; reflexivity.
Qed.

Lemma get_platform_type_cached (inp : pt_input) (c : pt_cache) :
  pt_init c = true -> get_platform_type inp c = (c, platform_type c, false).
Proof. intros H. unfold get_platform_type. rewrite H. reflexivity. Qed.

(** Once initialised, every later call returns the cached value and does
    not touch the file system, whatever it would find there. *)
Lemma run_get_platform_type_cached (inps : list pt_input) (c : pt_cache) :
  pt_init c = true ->
  Forall (fun x => x = (platform_type c, false)) (run_get_platform_type inps c).
Proof.
  intros H. induction inps as [|inp r IH]; simpl; [constructor|].
  rewrite (get_platform_type_cached inp c H). constructor; [reflexivity|exact IH].
Qed.

(** When the first line ends in a newline, it is returned without it. *)
Lemma read_first_line_newline (line rest : string) (err : bool) :
  (forall k c, String.get k line = Some c -> c <> "010"%char) ->
  read_first_line (String.append line (String "010"%char rest)) err = (line, false).
Proof.
  induction line as [|c r IH]; intros Hno; simpl; [reflexivity|].
  destruct (Ascii.eqb c "010"%char) eqn:Hc.
  - apply Ascii.eqb_eq in Hc. exfalso. exact (Hno 0%nat c eq_refl Hc).
  - rewrite IH; [reflexivity|]. intros k c' Hk. exact (Hno (S k) c' Hk).
Qed.

Lemma scan_table_spec (tbl : list ec2_platform_data) (t : string) :
  forall idx acc,
  (scan_table tbl t idx acc = acc /\
   forall j e, tbl !! j = Some e -> strcmp_eq t (name e) = false) \/
  (exists j e, scan_table tbl t idx acc = Some (idx + j)%nat /\ tbl !! j = Some e /\
     strcmp_eq t (name e) = true /\
     forall j' e', (j < j')%nat -> tbl !! j' = Some e' -> strcmp_eq t (name e') = false).
Proof.
  induction tbl as [|e r IH]; intros idx acc; simpl.
  - left. split; [reflexivity|]. intros j e H. rewrite lookup_nil in H. discriminate.
  - destruct (IH (S idx) (if strcmp_eq t (name e) then Some idx else acc))
      as [[Hr Hno] | (j & e' & Hr & Hj & Hm & Hlast)].
    + rewrite Hr. destruct (strcmp_eq t (name e)) eqn:He.
      * right. exists 0%nat, e. split; [f_equal; lia|]. split; [reflexivity|].
        split; [exact He|]. intros j' e'' Hlt Hj'. destruct j' as [|j']; [lia|].
        exact (Hno j' e'' Hj').
      * left. split; [reflexivity|]. intros [|j] e'' Hj; simpl in Hj.
        -- injection Hj as <-. exact He.
        -- exact (Hno j e'' Hj).
    + right. exists (S j), e'. split; [rewrite Hr; f_equal; lia|].
      split; [exact Hj|]. split; [exact Hm|].
      intros j' e'' Hlt Hj'. destruct j' as [|j']; [lia|].
      apply (Hlast j' e''); [lia|exact Hj'].
Qed.

Lemma run_get_platform_data_cached (tbl : list ec2_platform_data) (inps : list pt_input)
  (c : pt_cache) (d : pd_cache) :
  pd_init d = true ->
  Forall (fun x => x = platform_data d) (run_get_platform_data tbl inps c d).
Proof.
  intros H. revert c. induction inps as [|inp r IH]; intros c; simpl; [constructor|].
  unfold get_platform_data_tbl at 1. rewrite H. constructor; [reflexivity|apply IH].
Qed.

(** C8: [get_platform_data] yields none when the identity is none or
    matches no catalogue entry, and otherwise the entry whose name equals
    the identity, the last such entry when several match (the table is
    scanned completely); every later call returns that same result. *)
Theorem get_platform_data_last_match (tbl : list ec2_platform_data) (inp : pt_input)
  (inps : list pt_input) :
  let '(c1, d1, r) := get_platform_data_tbl tbl inp pt_cache0 pd_cache0 in
  (platform_type c1 = None -> r = None) /\
  (forall t, platform_type c1 = Some t ->
     (r = None /\ forall j e, tbl !! j = Some e -> strcmp_eq t (name e) = false) \/
     (exists j e, r = Some j /\ tbl !! j = Some e /\ strcmp_eq t (name e) = true /\
        forall j' e', (j < j')%nat -> tbl !! j' = Some e' -> strcmp_eq t (name e') = false)) /\
  Forall (fun x => x = r) (run_get_platform_data tbl inps c1 d1).
Proof.
  unfold get_platform_data_tbl. simpl.
  pose proof (get_platform_type_result inp pt_cache0) as Hres.
  destruct (get_platform_type inp pt_cache0) as [[c' t] tch]. simpl in Hres. subst t.
  destruct (platform_type c') as [ty|] eqn:Hty.
  - split; [intros H; congruence|]. split.
    + intros t Ht. assert (ty = t) as <- by congruence.
      destruct (scan_table_spec tbl ty 0 None) as [[Hr Hno] | (j & e & Hr & Hj & Hm & Hl)].
      * left. split; [exact Hr|exact Hno].
      * right. exists j, e. split; [exact Hr|]. auto.
    + apply (run_get_platform_data_cached tbl inps c'
               {| pd_init := true; platform_data := scan_table tbl ty 0 None |}).
      reflexivity.
  - split; [reflexivity|]. split; [intros t H; congruence|].
    pose proof (run_get_platform_data_cached tbl inps c'
                  {| pd_init := true; platform_data := None |} eq_refl) as H.
    exact H.
Qed.

Lemma get_platform_data_last_match_witness :
  get_platform_data
    {| product_name := Some "p5.48xlarge
"%string; read_error := false; alloc_ok := true |} pt_cache0 pd_cache0 =
  ({| pt_init := true; platform_type := Some "p5.48xlarge"%string |},
   {| pd_init := true; platform_data := Some 3%nat |}, Some 3%nat) /\
  (let '(c1, d1, r) := get_platform_data_tbl platform_data_map
       {| product_name := Some "p5.48xlarge
"%string; read_error := false; alloc_ok := true |} pt_cache0 pd_cache0 in
   (platform_type c1 = None -> r = None) /\
   (forall t, platform_type c1 = Some t ->
      (r = None /\ forall j e, platform_data_map !! j = Some e -> strcmp_eq t (name e) = false) \/
      (exists j e, r = Some j /\ platform_data_map !! j = Some e /\ strcmp_eq t (name e) = true /\
         forall j' e', (j < j')%nat -> platform_data_map !! j' = Some e' ->
                       strcmp_eq t (name e') = false)) /\
   Forall (fun x => x = r) (run_get_platform_data platform_data_map [] c1 d1)).
Proof.
  split; [vm_compute; reflexivity|].
  exact (get_platform_data_last_match platform_data_map
           {| product_name := Some "p5.48xlarge
"%string; read_error := false; alloc_ok := true |} []).
Defined.

(** C7: on a product_name file whose first line is not ended by a newline
    (here "p5.48xlarge" with no newline), the first call of
    [get_platform_type] returns that line followed by the byte
    [(char)EOF] (0xFF), not the line itself. *)
Theorem get_platform_type_no_newline :
  get_platform_type {| product_name := Some "p5.48xlarge"%string; read_error := false;
                       alloc_ok := true |} pt_cache0 =
  ({| pt_init := true;
      platform_type := Some (String.append "p5.48xlarge" (String EOF_char EmptyString)) |},
   Some (String.append "p5.48xlarge" (String EOF_char EmptyString)), true).
Proof. vm_compute. reflexivity. Qed.

(** ** GUID parsing *)

Lemma c_digit10_char (c : ascii) (d : Z) :
  c_digit10 c = Some d ->
  c_isspace c = false /\ Ascii.eqb c "-"%char = false /\ Ascii.eqb c "+"%char = false /\
  0 <= d <= 9.
Proof.
  destruct c as [[] [] [] [] [] [] [] []]; vm_compute; intros H;
    try discriminate H; injection H as <-; repeat split; discriminate.
Qed.

Lemma strtol10_two_digits (c1 c2 : ascii) (d1 d2 : Z) :
  c_digit10 c1 = Some d1 -> c_digit10 c2 = Some d2 ->
  strtol10 (String c1 (String c2 EmptyString)) = (d1 * 10 + d2, 2%nat).
Proof.
  intros H1 H2.
  destruct (c_digit10_char c1 d1 H1) as (Hs & Hm & Hp & _).
  unfold strtol10. simpl. rewrite Hs, Hm, Hp. simpl. rewrite H1, H2. reflexivity.
Qed.

(** C2 (as the code does it): [get_rail_vf_idx] gives [-EIO] when the
    node_guid file cannot be opened or is empty (its [fgets] returns NULL,
    in general or for an empty file), and [-EINVAL] for a line whose length
    is not 19 or whose character 14 is not ':'.  Nothing else of the
    XXXX:XXXX:XXXX:XXXX shape is checked: a 19-character line with ':' at
    index 14 and decimal digits in its last two places is accepted (a
    non-negative result), whatever its other characters are. *)
Theorem get_rail_vf_idx_checks (fs : guid_fs) (info : fi_info) :
  (fs (dev_name info) = None -> get_rail_vf_idx fs info = - EIO) /\
  (forall contents, fs (dev_name info) = Some contents -> fgets 20 contents = None ->
     get_rail_vf_idx fs info = - EIO) /\
  (fs (dev_name info) = Some EmptyString -> get_rail_vf_idx fs info = - EIO) /\
  (forall contents guid,
     fs (dev_name info) = Some contents -> fgets 20 contents = Some guid ->
     ((strlen guid <> 19%nat \/ String.get 14 (c_str guid) <> Some ":"%char) ->
        get_rail_vf_idx fs info = - EINVAL) /\
     (strlen guid = 19%nat -> String.get 14 (c_str guid) = Some ":"%char ->
      forall c1 c2 d1 d2,
        String.substring 17 2 (c_str guid) = String c1 (String c2 EmptyString) ->
        c_digit10 c1 = Some d1 -> c_digit10 c2 = Some d2 ->
        0 <= get_rail_vf_idx fs info)).
Proof.
  split; [|split; [|split]].
  - intros H. unfold get_rail_vf_idx. rewrite H. reflexivity.
  - intros contents Hfs Hg. unfold get_rail_vf_idx. rewrite Hfs, Hg. reflexivity.
  - intros Hfs. unfold get_rail_vf_idx. rewrite Hfs. reflexivity.
  - intros contents guid Hfs Hg. unfold get_rail_vf_idx. rewrite Hfs, Hg. split.
    + intros [Hlen | Hcol].
      * apply Nat.eqb_neq in Hlen. rewrite Hlen. reflexivity.
      * destruct (strlen guid =? 19)%nat; [|reflexivity].
        destruct (String.get 14 (c_str guid)) as [c|]; [|reflexivity].
        destruct (Ascii.eqb c ":"%char) eqn:Hc; [|reflexivity].
        apply Ascii.eqb_eq in Hc. subst c. contradiction.
    + intros Hlen Hcol c1 c2 d1 d2 Hsub H1 H2.
      rewrite Hlen, Hcol. simpl. rewrite Hsub, (strtol10_two_digits c1 c2 d1 d2 H1 H2).
      simpl. destruct (c_digit10_char c1 d1 H1) as (_ & _ & _ & ?).
      destruct (c_digit10_char c2 d2 H2) as (_ & _ & _ & ?). lia.
Qed.

Definition guid_fs_one (contents : string) : guid_fs := fun _ => Some contents.

Definition rail_a : fi_info := {| info_id := 0; dev_name := "rdmap16s27" |}.

Lemma get_rail_vf_idx_checks_witness :
  get_rail_vf_idx (guid_fs_one "0000:0000:0000:0001") rail_a = 1 /\
  get_rail_vf_idx (guid_fs_one EmptyString) rail_a = - EIO /\
  0 <= get_rail_vf_idx (guid_fs_one "0000:0000:0000:0001") rail_a.
Proof.
  split; [vm_compute; reflexivity|].
  split; [apply (proj1 (proj2 (proj2 (get_rail_vf_idx_checks (guid_fs_one EmptyString) rail_a))));
          reflexivity|].
  apply (proj2 (proj2 (proj2 (proj2 (get_rail_vf_idx_checks (guid_fs_one "0000:0000:0000:0001") rail_a)))
                  "0000:0000:0000:0001" "0000:0000:0000:0001" eq_refl eq_refl)
           eq_refl eq_refl "0"%char "1"%char 0 1 eq_refl eq_refl eq_refl).
Defined.

(** C2 fails: the line "zzzz-zzzz-zzzz:zz01" is not of the form
    XXXX:XXXX:XXXX:XXXX, yet [get_rail_vf_idx] accepts it and returns 1. *)
Lemma get_rail_vf_idx_accepts_non_hex :
  get_rail_vf_idx (guid_fs_one "zzzz-zzzz-zzzz:zz01") rail_a = 1.
Proof. vm_compute. reflexivity. Qed.

(** The slip noted for C2: the last two characters are converted in base
    10, so the GUID ending in hex 0x10 gives 10, not 16. *)
Lemma get_rail_vf_idx_decimal :
  get_rail_vf_idx (guid_fs_one "0000:0000:0000:0010") rail_a = 10.
Proof. vm_compute. reflexivity. Qed.

(** ** Rail ordering *)

Definition rail_b : fi_info := {| info_id := 1; dev_name := "rdmap17s27" |}.
Definition rail_c : fi_info := {| info_id := 2; dev_name := "rdmap32s27" |}.
Definition rail_d : fi_info := {| info_id := 3; dev_name := "rdmap33s27" |}.

(** Four rails whose GUIDs end in 00, 00, 01, 01; [bad_b] gives the second
    one a malformed GUID. *)
Definition guid_fs_4 (bad_b : bool) : guid_fs := fun dev =>
  if String.eqb dev "rdmap16s27" then Some "0000:0000:0000:0000"%string
  else if String.eqb dev "rdmap17s27" then
    (if bad_b then Some "0000:0000:0000"%string else Some "0000:0000:0000:0000"%string)
  else if String.eqb dev "rdmap32s27" then Some "0000:0000:0000:0001"%string
  else if String.eqb dev "rdmap33s27" then Some "0000:0000:0000:0001"%string
  else None.

(** C1 (as the code does it): with [num_rails = 4] and descriptors whose
    GUID slots are 0, 0, 1, 1 in discovery order, the slot-0 descriptors go
    to positions 0 and 1 and the slot-1 descriptors to positions 2 and 3
    (each counter starts at its base 0 or 2 and steps by 1), so the result
    is the input order itself. *)
Theorem platform_sort_rails_0011 (fs : guid_fs) (d0 d1 d2 d3 : fi_info) :
  get_rail_vf_idx fs d0 = 0 -> get_rail_vf_idx fs d1 = 0 ->
  get_rail_vf_idx fs d2 = 1 -> get_rail_vf_idx fs d3 = 1 ->
  platform_sort_rails fs [d0; d1; d2; d3] 4 = Some [d0; d1; d2; d3].
Proof.
  intros H0 H1 H2 H3.
  unfold platform_sort_rails, sort_rails_core. simpl.
  rewrite H0. simpl. rewrite H1. simpl. rewrite H2. simpl. rewrite H3. simpl.
  reflexivity.
Qed.

Lemma platform_sort_rails_0011_witness :
  get_rail_vf_idx (guid_fs_4 false) rail_a = 0 /\
  platform_sort_rails (guid_fs_4 false) [rail_a; rail_b; rail_c; rail_d] 4 =
    Some [rail_a; rail_b; rail_c; rail_d].
Proof.
  split; [vm_compute; reflexivity|].
  apply platform_sort_rails_0011; vm_compute; reflexivity.
Defined.

(** C1 fails: rail_b carries slot 0 but ends at position 1, not in
    {0, 2}; rail_c carries slot 1 and ends at position 2, not in {1, 3}. *)
Lemma platform_sort_rails_not_interleaved :
  get_rail_vf_idx (guid_fs_4 false) rail_b = 0 /\
  get_rail_vf_idx (guid_fs_4 false) rail_c = 1 /\
  platform_sort_rails (guid_fs_4 false) [rail_a; rail_b; rail_c; rail_d] 4 =
    Some [rail_a; rail_b; rail_c; rail_d] /\
  [rail_a; rail_b; rail_c; rail_d] !! 1%nat = Some rail_b /\
  [rail_a; rail_b; rail_c; rail_d] !! 2%nat = Some rail_c.
Proof. vm_compute. repeat split. Qed.

(** C4 (as the code does it): when the assignment loop gives up (no more
    descriptors, an unreadable or malformed GUID, a slot outside [0, 2),
    or an occupied target position), the list seen through [*info_list] is
    exactly the input list: nothing was relinked. *)
Theorem platform_sort_rails_failure_untouched (fs : guid_fs) (l : list fi_info) (num_rails : Z) :
  sort_rails_core fs l num_rails = SortFailed ->
  platform_sort_rails fs l num_rails = Some l.
Proof.
  intros H. unfold platform_sort_rails. rewrite H.
  destruct (num_rails <=? 0); reflexivity.
Qed.

Lemma platform_sort_rails_failure_untouched_witness :
  sort_rails_core (guid_fs_4 true) [rail_a; rail_b; rail_c; rail_d] 4 = SortFailed /\
  platform_sort_rails (guid_fs_4 true) [rail_a; rail_b; rail_c; rail_d] 4 =
    Some [rail_a; rail_b; rail_c; rail_d].
Proof.
  assert (H : sort_rails_core (guid_fs_4 true) [rail_a; rail_b; rail_c; rail_d] 4 = SortFailed)
    by (vm_compute; reflexivity).
  split; [exact H|]. exact (platform_sort_rails_failure_untouched _ _ _ H).
Defined.

(** C4 fails on "an error is propagated": a call that fails on rail_b's
    malformed GUID and a call that succeeds leave the caller with the same
    list, and the function has no other output, so the caller cannot tell
    the failure apart. *)
Lemma platform_sort_rails_failure_unreported :
  sort_rails_core (guid_fs_4 true) [rail_a; rail_b; rail_c; rail_d] 4 = SortFailed /\
  sort_rails_core (guid_fs_4 false) [rail_a; rail_b; rail_c; rail_d] 4 =
    SortFilled [Some rail_a; Some rail_b; Some rail_c; Some rail_d] /\
  platform_sort_rails (guid_fs_4 true) [rail_a; rail_b; rail_c; rail_d] 4 =
    platform_sort_rails (guid_fs_4 false) [rail_a; rail_b; rail_c; rail_d] 4.
Proof. vm_compute. repeat split. Qed.

(** ** Endpoint negotiation *)

Lemma proto_optname_rdma (p : string) :
  strcasecmp_eq "RDMA" p = true ->
  proto_optname p = Some FI_OPT_EFA_WRITE_IN_ORDER_ALIGNED_128_BYTES.
Proof.
  unfold proto_optname, strcasecmp_eq. intros H.
  apply String.eqb_eq in H. simpl in H. rewrite <- H. reflexivity.
Qed.

(** How a call ends: either it returns before the negotiation, leaving
    the state alone, or it passes every check and runs [negotiate]. *)
Lemma config_endpoint_cases (d : ep_domain) (o : ep_obs) (s : neg_state)
  (r : Z) (s' : neg_state) (lg : list ep_event) :
  platform_config_endpoint d o s = Some (r, s', lg) ->
  (s' = s /\ forall ev, In ev lg -> ev = Ev_getopt_emulated_write) \/
  (exists opt skip r0 lgn,
     endpoint_is_null o = false /\ strcmp_eq (prov_name d) "efa" = true /\
     gdr_check_fails d = false /\
     proto_optname (selected_protocol d) = Some opt /\ p5_rdma_skip d s = Some skip /\
     negotiate opt o
       (if skip && negb (nccl_proto_configured s)
        then {| nccl_proto_configured := true; need_ordering := false;
                env_nccl_proto := env_nccl_proto s |}
        else s) = (r0, s', lgn) /\
     (forall ev, In ev lg ->
        ev = Ev_getopt_emulated_write \/ In ev lgn \/ ev = Ev_setopt_max_msg_size) /\
     (forall ev, In ev lgn -> In ev lg) /\
     (r0 <> 0 -> r = r0)).
Proof.
  unfold platform_config_endpoint. intros H.
  destruct (endpoint_is_null o) eqn:En.
  { injection H as <- <- <-. left. split; [reflexivity|]. intros ev []. }
  destruct (strcmp_eq (prov_name d) "efa") eqn:Ep; simpl in H.
  2:{ injection H as <- <- <-. left. split; [reflexivity|]. intros ev []. }
  destruct (gdr_check_fails d) eqn:Eg.
  { injection H as <- <- <-. left. split; [reflexivity|]. intros ev []. }
  set (lv := if strcasecmp_eq "RDMA" (selected_protocol d) && (disable_native_rdma_check d =? 0)
             then (validate_rdma_write (emulated_write_getopt o), [Ev_getopt_emulated_write])
             else (0, [])) in H.
  assert (Hlv : forall ev, In ev (snd lv) -> ev = Ev_getopt_emulated_write).
  { unfold lv. destruct (_ && _); simpl; intros ev Hev;
    [destruct Hev as [Hev|[]]; auto | destruct Hev]. }
  destruct lv as [vret lg0]. simpl in Hlv.
  destruct (negb (vret =? 0)).
  { injection H as <- <- <-. left. split; [reflexivity|exact Hlv]. }
  destruct (proto_optname (selected_protocol d)) as [opt|] eqn:Eo.
  2:{ injection H as <- <- <-. left. split; [reflexivity|exact Hlv]. }
  destruct (p5_rdma_skip d s) as [skip|] eqn:Es; [|discriminate H].
  destruct (negotiate opt o _) as [[r0 s0] lgn] eqn:En2.
  right. exists opt, skip, r0, lgn.
  do 5 (split; [reflexivity || assumption|]).
  destruct (negb (r0 =? 0)) eqn:Er.
  - injection H as <- <- <-. split; [exact En2|].
    split; [intros ev Hev; apply in_app_or in Hev as [Hev|Hev]; auto|].
    split; [intros ev Hev; apply in_or_app; auto|].
    intros _. reflexivity.
  - apply negb_false_iff, Z.eqb_eq in Er.
    destruct (strcasecmp_eq "RDMA" (selected_protocol d));
      injection H as <- <- <-; (split; [exact En2|]).
    + split.
      * intros ev Hev. apply in_app_or in Hev as [Hev|Hev]; [auto|].
        apply in_app_or in Hev as [Hev|[Hev|[]]]; auto.
      * split; [intros ev Hev; apply in_or_app; right; apply in_or_app; auto|].
        intros Hn. contradiction.
    + split; [intros ev Hev; apply in_app_or in Hev as [Hev|Hev]; auto|].
      split; [intros ev Hev; apply in_or_app; auto|].
      intros Hn. contradiction.
Qed.

Lemma negotiate_ordered (opt : inorder_opt) (o : ep_obs) (s : neg_state) :
  nccl_proto_configured s = true -> need_ordering s = true ->
  exists r0 lgn, negotiate opt o s = (r0, s, lgn) /\ In (Ev_setopt_inorder opt) lgn /\
    (inorder_setopt_rc o <> 0 -> r0 <> 0).
Proof.
  intros Hc Hn. unfold negotiate. rewrite Hc, Hn. simpl.
  unfold configure_ep_inorder.
  destruct ((inorder_setopt_rc o =? - FI_EOPNOTSUPP) || (inorder_setopt_rc o =? - FI_ENOPROTOOPT)).
  - simpl. eexists _, _. split; [reflexivity|]. split; [left; reflexivity|].
    intros _. unfold ENOTSUP. lia.
  - destruct (inorder_setopt_rc o =? 0) eqn:E0; simpl; rewrite ?E0; simpl.
    + eexists _, _. split; [reflexivity|]. split; [left; reflexivity|].
      apply Z.eqb_eq in E0. intros H. contradiction.
    + eexists _, _. split; [reflexivity|]. split; [left; reflexivity|].
      apply Z.eqb_neq in E0. intros _. exact E0.
Qed.

Lemma negotiate_unordered (opt : inorder_opt) (o : ep_obs) (s : neg_state) :
  nccl_proto_configured s = true -> need_ordering s = false ->
  negotiate opt o s = (0, s, []).
Proof. intros Hc Hn. unfold negotiate. rewrite Hc, Hn. reflexivity. Qed.

Lemma skip_state_configured (skip : bool) (s : neg_state) :
  nccl_proto_configured s = true ->
  (if skip && negb (nccl_proto_configured s)
   then {| nccl_proto_configured := true; need_ordering := false;
           env_nccl_proto := env_nccl_proto s |}
   else s) = s.
Proof. intros H. rewrite H. destruct skip; reflexivity. Qed.

(** A call rejected before the negotiation: a NULL endpoint, or an RDMA
    domain whose native RDMA-write check fails (with the error [r]). *)
Definition early_reject (d : ep_domain) (o : ep_obs) (r : Z) : Prop :=
  (endpoint_is_null o = true /\ r = - EINVAL) \/
  (endpoint_is_null o = false /\ strcasecmp_eq "RDMA" (selected_protocol d) = true /\
   disable_native_rdma_check d = 0 /\ r = validate_rdma_write (emulated_write_getopt o) /\
   r <> 0).

(** From a configured, ordered state every call keeps the state; it is
    either rejected before the negotiation with an error, or it sets the
    same in-order option again and fails when that does not succeed. *)
Lemma config_endpoint_ordered (d : ep_domain) (o : ep_obs) (s : neg_state) (opt : inorder_opt) :
  nccl_proto_configured s = true -> need_ordering s = true ->
  strcmp_eq (prov_name d) "efa" = true -> gdr_check_fails d = false ->
  proto_optname (selected_protocol d) = Some opt -> p5_rdma_skip d s <> None ->
  exists r lg, platform_config_endpoint d o s = Some (r, s, lg) /\
    ((r <> 0 /\ early_reject d o r /\ forall opt', ~ In (Ev_setopt_inorder opt') lg) \/
     (In (Ev_setopt_inorder opt) lg /\ (inorder_setopt_rc o <> 0 -> r <> 0))).
Proof.
  intros Hc Hn Hp Hg Ho Hs. unfold platform_config_endpoint.
  destruct (endpoint_is_null o) eqn:Enull.
  { eexists _, _. split; [reflexivity|]. left. split; [unfold EINVAL; lia|].
    split; [left; split; [exact Enull|reflexivity]|]. intros _ []. }
  rewrite Hp, Hg. simpl.
  set (lv := if strcasecmp_eq "RDMA" (selected_protocol d) && (disable_native_rdma_check d =? 0)
             then (validate_rdma_write (emulated_write_getopt o), [Ev_getopt_emulated_write])
             else (0, [])).
  assert (Hlv : forall opt', ~ In (Ev_setopt_inorder opt') (snd lv)).
  { unfold lv. destruct (_ && _); simpl; intros opt' Hev;
      [destruct Hev as [Hev|[]]; discriminate Hev | destruct Hev]. }
  assert (Hlv2 : fst lv <> 0 ->
            strcasecmp_eq "RDMA" (selected_protocol d) = true /\
            disable_native_rdma_check d = 0 /\
            fst lv = validate_rdma_write (emulated_write_getopt o)).
  { unfold lv. destruct (strcasecmp_eq "RDMA" (selected_protocol d)),
      (disable_native_rdma_check d =? 0) eqn:Ed; simpl; intros Hv;
      try (exfalso; apply Hv; reflexivity).
    split; [reflexivity|]. split; [apply Z.eqb_eq; exact Ed|reflexivity]. }
  destruct lv as [vret lg0]. simpl in Hlv, Hlv2.
  destruct (negb (vret =? 0)) eqn:Ev.
  { eexists _, _. split; [reflexivity|]. left.
    apply negb_true_iff, Z.eqb_neq in Ev. split; [exact Ev|]. split; [|exact Hlv].
    destruct (Hlv2 Ev) as (Hr & Hd & Hv). right. auto. }
  rewrite Ho. destruct (p5_rdma_skip d s) as [skip|]; [|congruence].
  rewrite (skip_state_configured skip s Hc).
  destruct (negotiate_ordered opt o s Hc Hn) as (r0 & lgn & Hneg & Hin & Hrc).
  rewrite Hneg.
  destruct (negb (r0 =? 0)) eqn:Er.
  - eexists _, _. split; [reflexivity|]. right. split; [apply in_or_app; right; exact Hin|].
    exact Hrc.
  - apply negb_false_iff, Z.eqb_eq in Er.
    destruct (strcasecmp_eq "RDMA" (selected_protocol d));
      (eexists _, _; split; [reflexivity|]; right);
      (split; [apply in_or_app; right; first [exact Hin | apply in_or_app; left; exact Hin]|]);
      intros Hne; exfalso; apply (Hrc Hne); exact Er.
Qed.

(** From a configured, unordered state every call keeps the state and
    neither sets an in-order option nor reports an ordering mismatch. *)
Lemma config_endpoint_unordered (d : ep_domain) (o : ep_obs) (s : neg_state) :
  nccl_proto_configured s = true -> need_ordering s = false -> p5_rdma_skip d s <> None ->
  exists r lg, platform_config_endpoint d o s = Some (r, s, lg) /\
    ~ In Ev_warn_ordering_mismatch lg /\ forall opt, ~ In (Ev_setopt_inorder opt) lg.
Proof.
  intros Hc Hn Hs. unfold platform_config_endpoint.
  destruct (endpoint_is_null o).
  { eexists _, _. split; [reflexivity|]. split; [intros []|]. intros _ []. }
  destruct (strcmp_eq (prov_name d) "efa"); simpl.
  2:{ eexists _, _. split; [reflexivity|]. split; [intros []|]. intros _ []. }
  destruct (gdr_check_fails d).
  { eexists _, _. split; [reflexivity|]. split; [intros []|]. intros _ []. }
  set (lv := if strcasecmp_eq "RDMA" (selected_protocol d) && (disable_native_rdma_check d =? 0)
             then (validate_rdma_write (emulated_write_getopt o), [Ev_getopt_emulated_write])
             else (0, [])).
  assert (Hlv : forall ev, In ev (snd lv) -> ev = Ev_getopt_emulated_write).
  { unfold lv. destruct (_ && _); simpl; intros ev Hev;
      [destruct Hev as [Hev|[]]; auto | destruct Hev]. }
  destruct lv as [vret lg0]. simpl in Hlv.
  assert (Hok : forall lg, (forall ev, In ev lg ->
                  ev = Ev_getopt_emulated_write \/ ev = Ev_setopt_max_msg_size) ->
                ~ In Ev_warn_ordering_mismatch lg /\ forall opt, ~ In (Ev_setopt_inorder opt) lg).
  { intros lg Hl. split; [intros Hi; destruct (Hl _ Hi); discriminate|].
    intros opt Hi. destruct (Hl _ Hi); discriminate. }
  destruct (negb (vret =? 0)).
  { eexists _, _. split; [reflexivity|]. apply Hok. intros ev Hev. left. auto. }
  destruct (proto_optname (selected_protocol d)) as [opt|].
  2:{ eexists _, _. split; [reflexivity|]. apply Hok. intros ev Hev. left. auto. }
  destruct (p5_rdma_skip d s) as [skip|]; [|congruence].
  rewrite (skip_state_configured skip s Hc), (negotiate_unordered opt o s Hc Hn). simpl.
  destruct (strcasecmp_eq "RDMA" (selected_protocol d));
    (eexists _, _; split; [reflexivity|]); apply Hok; intros ev Hev;
    rewrite app_nil_r in Hev || idtac;
    repeat (apply in_app_or in Hev as [Hev|Hev]); try (left; auto; fail);
    try (destruct Hev as [Hev|[]]; right; auto).
Qed.

Lemma p5_rdma_skip_env (d : ep_domain) (s s' : neg_state) :
  env_nccl_proto s = env_nccl_proto s' -> p5_rdma_skip d s = p5_rdma_skip d s'.
Proof. intros H. unfold p5_rdma_skip. rewrite H. reflexivity. Qed.

Lemma p5_rdma_skip_env_set (d : ep_domain) (s : neg_state) (v : string) :
  env_nccl_proto s = Some v -> p5_rdma_skip d s = Some false.
Proof. intros H. unfold p5_rdma_skip. rewrite H. reflexivity. Qed.

(** The first negotiation on an unconfigured domain always sets the
    in-order option; it records "ordered" only when that succeeds (and then
    leaves NCCL_PROTO alone), and records "unordered" when the option is
    unsupported. *)
Lemma negotiate_unconfigured (opt : inorder_opt) (o : ep_obs) (s : neg_state) :
  nccl_proto_configured s = false -> need_ordering s = false ->
  let '(r0, s', lgn) := negotiate opt o s in
  In (Ev_setopt_inorder opt) lgn /\
  (need_ordering s' = true ->
     nccl_proto_configured s' = true /\ env_nccl_proto s' = env_nccl_proto s) /\
  ((inorder_setopt_rc o = - FI_EOPNOTSUPP \/ inorder_setopt_rc o = - FI_ENOPROTOOPT) ->
     nccl_proto_configured s' = true /\ need_ordering s' = false /\
     (env_nccl_proto s' = env_nccl_proto s \/ exists v, env_nccl_proto s' = Some v)).
Proof.
  intros Hc Hn. unfold negotiate. rewrite Hc, Hn. simpl.
  unfold configure_ep_inorder.
  destruct ((inorder_setopt_rc o =? - FI_EOPNOTSUPP) || (inorder_setopt_rc o =? - FI_ENOPROTOOPT))
    eqn:Eu.
  - simpl. unfold configure_nccl_proto.
    destruct (env_nccl_proto s) as [v|] eqn:Ee;
      [|destruct (proto_setenv_ok o)]; simpl;
      (split; [left; reflexivity|]); (split; [intros H; discriminate H|]);
      intros _; (split; [reflexivity|]); (split; [reflexivity|]); eauto.
  - assert (Hnu : ~ (inorder_setopt_rc o = - FI_EOPNOTSUPP \/
                     inorder_setopt_rc o = - FI_ENOPROTOOPT)).
    { intros [H|H]; rewrite H in Eu; rewrite Z.eqb_refl in Eu;
        [discriminate Eu | rewrite orb_true_r in Eu; discriminate Eu]. }
    destruct (inorder_setopt_rc o =? 0) eqn:E0; simpl; rewrite ?E0; simpl.
    + split; [left; reflexivity|]. split; [intros _; split; reflexivity|].
      intros H. contradiction.
    + split; [left; reflexivity|]. split; [rewrite Hn; intros H; discriminate H|].
      intros H. contradiction.
Qed.

Lemma run_config_endpoint_unordered (d : ep_domain) (os : list ep_obs) (s : neg_state) :
  nccl_proto_configured s = true -> need_ordering s = false -> p5_rdma_skip d s <> None ->
  exists outs, run_config_endpoint d os s = Some outs /\
    Forall (fun '(r, s', lg) =>
              s' = s /\ ~ In Ev_warn_ordering_mismatch lg /\
              forall opt, ~ In (Ev_setopt_inorder opt) lg) outs.
Proof.
  intros Hc Hn Hs. induction os as [|o r IH]; simpl.
  - exists []. split; [reflexivity|constructor].
  - destruct (config_endpoint_unordered d o s Hc Hn Hs) as (ret & lg & Hst & Hw & Hi).
    rewrite Hst. destruct IH as (outs & Hrun & Hall). rewrite Hrun.
    eexists. split; [reflexivity|]. constructor; [auto|exact Hall].
Qed.

Lemma run_config_endpoint_ordered (d : ep_domain) (os : list ep_obs) (s : neg_state)
  (opt : inorder_opt) :
  nccl_proto_configured s = true -> need_ordering s = true ->
  strcmp_eq (prov_name d) "efa" = true -> gdr_check_fails d = false ->
  proto_optname (selected_protocol d) = Some opt -> p5_rdma_skip d s <> None ->
  exists outs, run_config_endpoint d os s = Some outs /\
    Forall2 (fun o '(r, s', lg) =>
               s' = s /\
               ((r <> 0 /\ early_reject d o r /\ forall opt', ~ In (Ev_setopt_inorder opt') lg) \/
                (In (Ev_setopt_inorder opt) lg /\ (inorder_setopt_rc o <> 0 -> r <> 0))))
      os outs.
Proof.
  intros Hc Hn Hp Hg Ho Hs. induction os as [|o r IH]; simpl.
  - exists []. split; [reflexivity|constructor].
  - destruct (config_endpoint_ordered d o s opt Hc Hn Hp Hg Ho Hs) as (ret & lg & Hst & Hcase).
    rewrite Hst. destruct IH as (outs & Hrun & Hall). rewrite Hrun.
    eexists. split; [reflexivity|]. constructor; [auto|exact Hall].
Qed.

(** Concrete domains and endpoints used below. *)
Definition neg_state0 : neg_state :=
  {| nccl_proto_configured := false; need_ordering := false; env_nccl_proto := None |}.

Definition mk_domain (proto : string) (idx : nat) (gdr_ok : bool) : ep_domain :=
  {| prov_name := "efa"; disable_gdr_required_check := 0;
     ep_platform_data := platform_data_map !! idx; support_gdr_supported := gdr_ok;
     selected_protocol := proto; disable_native_rdma_check := 0;
     ep_platform_type := option_map name (platform_data_map !! idx) |}.

Definition dom_p4d_sendrecv : ep_domain := mk_domain "SENDRECV" 0 true.
Definition dom_p4d_rdma : ep_domain := mk_domain "RDMA" 0 true.
Definition dom_p5_rdma : ep_domain := mk_domain "RDMA" 3 true.
Definition dom_p5_rdma_no_gdr : ep_domain := mk_domain "RDMA" 3 false.

(** An endpoint whose in-order [fi_setopt] returns [rc] and on which
    writes are emulated when [emulated]. *)
Definition mk_obs (rc : Z) (emulated : bool) : ep_obs :=
  {| endpoint_is_null := false; emulated_write_getopt := (0, true, emulated);
     inorder_setopt_rc := rc; max_msg_setopt_rc := 0; proto_setenv_ok := true |}.

Definition null_obs : ep_obs :=
  {| endpoint_is_null := true; emulated_write_getopt := (0, true, false);
     inorder_setopt_rc := 0; max_msg_setopt_rc := 0; proto_setenv_ok := true |}.

Definition state_ordered : neg_state :=
  {| nccl_proto_configured := true; need_ordering := true; env_nccl_proto := None |}.

(** C10: with a NULL endpoint [platform_config_endpoint] returns [-EINVAL]
    at once: state unchanged, no transport call. *)
Theorem platform_config_endpoint_null (d : ep_domain) (o : ep_obs) (s : neg_state) :
  endpoint_is_null o = true ->
  platform_config_endpoint d o s = Some (- EINVAL, s, []).
Proof. intros H. unfold platform_config_endpoint. rewrite H. reflexivity. Qed.

Lemma platform_config_endpoint_null_witness :
  endpoint_is_null null_obs = true /\
  platform_config_endpoint dom_p4d_sendrecv null_obs state_ordered =
    Some (- EINVAL, state_ordered, []).
Proof.
  split; [reflexivity|]. apply platform_config_endpoint_null. reflexivity.
Defined.

(** C9 (as the code does it): on a first call that passes the checks
    before the negotiation (non-NULL endpoint, EFA provider, GDR check,
    native RDMA-write check), with NCCL_PROTO unset, the RDMA protocol and
    platform type p5.48xlarge, the domain is recorded as configured and
    unordered, and no in-order option is set on the endpoint.  A first
    call that stops before the negotiation (NULL endpoint, provider other
    than "efa", failed GDR check or failed native RDMA-write check)
    records nothing: the state is left as it was. *)
Theorem config_endpoint_p5_rdma_first (d : ep_domain) (o : ep_obs) (s : neg_state) :
  nccl_proto_configured s = false -> env_nccl_proto s = None ->
  strcasecmp_eq "RDMA" (selected_protocol d) = true ->
  ep_platform_type d = Some "p5.48xlarge"%string ->
  (endpoint_is_null o = false -> strcmp_eq (prov_name d) "efa" = true ->
   gdr_check_fails d = false ->
   ((disable_native_rdma_check d =? 0) = false \/
    validate_rdma_write (emulated_write_getopt o) = 0) ->
   exists r s' lg, platform_config_endpoint d o s = Some (r, s', lg) /\
     nccl_proto_configured s' = true /\ need_ordering s' = false /\
     forall opt, ~ In (Ev_setopt_inorder opt) lg) /\
  (endpoint_is_null o = true \/ strcmp_eq (prov_name d) "efa" = false \/
   gdr_check_fails d = true \/
   ((disable_native_rdma_check d =? 0) = true /\
    validate_rdma_write (emulated_write_getopt o) <> 0) ->
   exists r lg, platform_config_endpoint d o s = Some (r, s, lg)).
Proof.
  intros Hc He Hr Ht. split.
  2:{ intros Hcase. unfold platform_config_endpoint.
      destruct (endpoint_is_null o) eqn:En; [eexists _, _; reflexivity|].
      destruct (strcmp_eq (prov_name d) "efa") eqn:Ep; [|eexists _, _; reflexivity].
      destruct (gdr_check_fails d) eqn:Eg; [eexists _, _; reflexivity|].
      destruct Hcase as [H|[H|[H|(Hd & Hv)]]]; try discriminate H.
      rewrite Hr, Hd. cbn [andb negb].
      rewrite (proj2 (Z.eqb_neq _ _) Hv). eexists _, _; reflexivity. }
  intros Hnull Hp Hg Hv. unfold platform_config_endpoint.
  rewrite Hnull, Hp, Hg, Hr. simpl.
  assert (Hlv : exists lg0,
    (if disable_native_rdma_check d =? 0
     then (validate_rdma_write (emulated_write_getopt o), [Ev_getopt_emulated_write])
     else (0, [])) = (0, lg0) /\ forall opt, ~ In (Ev_setopt_inorder opt) lg0).
  { destruct Hv as [Hd|Hv].
    - rewrite Hd. exists []. split; [reflexivity|]. intros _ [].
    - destruct (disable_native_rdma_check d =? 0).
      + rewrite Hv. exists [Ev_getopt_emulated_write]. split; [reflexivity|].
        intros opt [H|[]]. discriminate H.
      + exists []. split; [reflexivity|]. intros _ []. }
  destruct Hlv as (lg0 & Hlv & Hno). rewrite Hlv. simpl.
  rewrite (proto_optname_rdma _ Hr).
  assert (Hs : p5_rdma_skip d s = Some true).
  { unfold p5_rdma_skip. rewrite He, Hr, Ht. reflexivity. }
  rewrite Hs, Hc. simpl.
  eexists _, _, _. split; [reflexivity|]. split; [reflexivity|]. split; [reflexivity|].
  intros opt Hin. apply in_app_or in Hin as [Hin|Hin]; [exact (Hno opt Hin)|].
  destruct Hin as [Hin|[]]. discriminate Hin.
Qed.

Lemma config_endpoint_p5_rdma_first_witness :
  (platform_config_endpoint dom_p5_rdma (mk_obs 0 false) neg_state0 =
    Some (0, {| nccl_proto_configured := true; need_ordering := false;
                env_nccl_proto := None |},
          [Ev_getopt_emulated_write; Ev_setopt_max_msg_size]) /\
  exists r s' lg, platform_config_endpoint dom_p5_rdma (mk_obs 0 false) neg_state0 =
                    Some (r, s', lg) /\
    nccl_proto_configured s' = true /\ need_ordering s' = false /\
    forall opt, ~ In (Ev_setopt_inorder opt) lg) /\
  (gdr_check_fails dom_p5_rdma_no_gdr = true /\
   exists r lg, platform_config_endpoint dom_p5_rdma_no_gdr (mk_obs 0 false) neg_state0 =
                  Some (r, neg_state0, lg)).
Proof.
  split; [split; [vm_compute; reflexivity|]|].
  - apply (config_endpoint_p5_rdma_first dom_p5_rdma (mk_obs 0 false) neg_state0);
      try reflexivity.
    right. reflexivity.
  - split; [reflexivity|].
    apply (config_endpoint_p5_rdma_first dom_p5_rdma_no_gdr (mk_obs 0 false) neg_state0);
      try reflexivity.
    right; right; left. reflexivity.
Defined.

(** C9 fails: on p5.48xlarge with the RDMA protocol and NCCL_PROTO unset,
    a first call on an instance where GDR is not supported returns
    [-EINVAL] before the negotiation and records nothing. *)
Lemma config_endpoint_p5_first_rejected :
  platform_config_endpoint dom_p5_rdma_no_gdr (mk_obs 0 false) neg_state0 =
    Some (- EINVAL, neg_state0, []) /\
  nccl_proto_configured neg_state0 = false.
Proof. vm_compute. split; reflexivity. Qed.

(** C5: when the first call on an unconfigured domain sets the in-order
    option and the transport answers "unsupported", the domain becomes
    configured and unordered; every later call on the domain, whatever its
    endpoint reports, keeps that state and neither sets the option again
    nor reports an ordering mismatch. *)
Theorem config_endpoint_unordered_forever (d : ep_domain) (o0 : ep_obs) (s0 : neg_state)
  (r1 : Z) (s1 : neg_state) (lg1 : list ep_event) (opt : inorder_opt) (os : list ep_obs) :
  nccl_proto_configured s0 = false -> need_ordering s0 = false ->
  platform_config_endpoint d o0 s0 = Some (r1, s1, lg1) ->
  In (Ev_setopt_inorder opt) lg1 ->
  (inorder_setopt_rc o0 = - FI_EOPNOTSUPP \/ inorder_setopt_rc o0 = - FI_ENOPROTOOPT) ->
  nccl_proto_configured s1 = true /\ need_ordering s1 = false /\
  exists outs, run_config_endpoint d os s1 = Some outs /\
    Forall (fun '(r, s', lg) =>
              s' = s1 /\ ~ In Ev_warn_ordering_mismatch lg /\
              forall opt', ~ In (Ev_setopt_inorder opt') lg) outs.
Proof.
  intros Hc Hn H Hin Hrc.
  destruct (config_endpoint_cases d o0 s0 r1 s1 lg1 H)
    as [[_ Hl] | (opt' & skip & r0 & lgn & _ & _ & _ & _ & Hs & Hneg & Hlg & _ & _)].
  { pose proof (Hl _ Hin) as E. discriminate E. }
  rewrite Hc in Hneg. destruct skip; simpl in Hneg.
  - rewrite negotiate_unordered in Hneg by reflexivity.
    injection Hneg as _ _ <-.
    destruct (Hlg _ Hin) as [E|[[]|E]]; discriminate E.
  - pose proof (negotiate_unconfigured opt' o0 s0 Hc Hn) as Hu. rewrite Hneg in Hu.
    destruct Hu as (_ & _ & Hun). destruct (Hun Hrc) as (Hc1 & Hn1 & Henv).
    split; [exact Hc1|]. split; [exact Hn1|].
    apply run_config_endpoint_unordered; [exact Hc1|exact Hn1|].
    destruct Henv as [He | (v & He)].
    + rewrite (p5_rdma_skip_env d s1 s0 He), Hs. discriminate.
    + rewrite (p5_rdma_skip_env_set d s1 v He). discriminate.
Qed.

Lemma config_endpoint_unordered_forever_witness :
  platform_config_endpoint dom_p4d_sendrecv (mk_obs (- FI_EOPNOTSUPP) false) neg_state0 =
    Some (0, {| nccl_proto_configured := true; need_ordering := false;
                env_nccl_proto := Some "simple"%string |},
          [Ev_setopt_inorder FI_OPT_EFA_SENDRECV_IN_ORDER_ALIGNED_128_BYTES;
           Ev_setenv_nccl_proto]) /\
  nccl_proto_configured {| nccl_proto_configured := true; need_ordering := false;
                           env_nccl_proto := Some "simple"%string |} = true /\
  need_ordering {| nccl_proto_configured := true; need_ordering := false;
                   env_nccl_proto := Some "simple"%string |} = false /\
  exists outs, run_config_endpoint dom_p4d_sendrecv [mk_obs 0 false; mk_obs (-5) true]
                 {| nccl_proto_configured := true; need_ordering := false;
                    env_nccl_proto := Some "simple"%string |} = Some outs /\
    Forall (fun '(r, s', lg) =>
              s' = {| nccl_proto_configured := true; need_ordering := false;
                      env_nccl_proto := Some "simple"%string |} /\
              ~ In Ev_warn_ordering_mismatch lg /\
              forall opt', ~ In (Ev_setopt_inorder opt') lg) outs.
Proof.
  assert (H : platform_config_endpoint dom_p4d_sendrecv (mk_obs (- FI_EOPNOTSUPP) false)
                neg_state0 =
    Some (0, {| nccl_proto_configured := true; need_ordering := false;
                env_nccl_proto := Some "simple"%string |},
          [Ev_setopt_inorder FI_OPT_EFA_SENDRECV_IN_ORDER_ALIGNED_128_BYTES;
           Ev_setenv_nccl_proto])) by (vm_compute; reflexivity).
  split; [exact H|].
  exact (config_endpoint_unordered_forever dom_p4d_sendrecv (mk_obs (- FI_EOPNOTSUPP) false)
           neg_state0 0 _
           [Ev_setopt_inorder FI_OPT_EFA_SENDRECV_IN_ORDER_ALIGNED_128_BYTES; Ev_setenv_nccl_proto]
           FI_OPT_EFA_SENDRECV_IN_ORDER_ALIGNED_128_BYTES [mk_obs 0 false; mk_obs (-5) true]
           eq_refl eq_refl H (or_introl eq_refl) (or_introl eq_refl)).
Defined.

(** C3 (as the code does it): once the first call on an unconfigured
    domain has recorded "ordered", every later call keeps that state
    (required ordering never changes).  Each later call is either rejected
    with an error before the negotiation (NULL endpoint, or the native
    RDMA-write check fails), without setting the in-order option, or it
    sets the same in-order option as the first call, and fails whenever
    that [fi_setopt] does not succeed (unsupported or any other error). *)
Theorem config_endpoint_ordered_forever (d : ep_domain) (o0 : ep_obs) (s0 : neg_state)
  (r1 : Z) (s1 : neg_state) (lg1 : list ep_event) (os : list ep_obs) :
  nccl_proto_configured s0 = false -> need_ordering s0 = false ->
  platform_config_endpoint d o0 s0 = Some (r1, s1, lg1) ->
  need_ordering s1 = true ->
  exists opt outs,
    In (Ev_setopt_inorder opt) lg1 /\ nccl_proto_configured s1 = true /\
    run_config_endpoint d os s1 = Some outs /\
    Forall2 (fun o '(r, s', lg) =>
               s' = s1 /\
               ((r <> 0 /\ early_reject d o r /\ forall opt', ~ In (Ev_setopt_inorder opt') lg) \/
                (In (Ev_setopt_inorder opt) lg /\ (inorder_setopt_rc o <> 0 -> r <> 0))))
      os outs.
Proof.
  intros Hc Hn H Hneed.
  destruct (config_endpoint_cases d o0 s0 r1 s1 lg1 H)
    as [[-> _] | (opt & skip & r0 & lgn & _ & Hp & Hg & Ho & Hs & Hneg & _ & Hlgn & _)].
  { rewrite Hn in Hneed. discriminate Hneed. }
  rewrite Hc in Hneg. destruct skip; simpl in Hneg.
  - rewrite negotiate_unordered in Hneg by reflexivity.
    injection Hneg as _ <- _. discriminate Hneed.
  - pose proof (negotiate_unconfigured opt o0 s0 Hc Hn) as Hu. rewrite Hneg in Hu.
    destruct Hu as (Hin & Hord & _). destruct (Hord Hneed) as (Hc1 & Henv).
    assert (Hs1 : p5_rdma_skip d s1 <> None).
    { rewrite (p5_rdma_skip_env d s1 s0 Henv), Hs. discriminate. }
    destruct (run_config_endpoint_ordered d os s1 opt Hc1 Hneed Hp Hg Ho Hs1)
      as (outs & Hrun & Hall).
    exists opt, outs. split; [exact (Hlgn _ Hin)|]. split; [exact Hc1|].
    split; [exact Hrun|exact Hall].
Qed.

Lemma config_endpoint_ordered_forever_witness :
  platform_config_endpoint dom_p4d_sendrecv (mk_obs 0 false) neg_state0 =
    Some (0, state_ordered, [Ev_setopt_inorder FI_OPT_EFA_SENDRECV_IN_ORDER_ALIGNED_128_BYTES]) /\
  exists opt outs,
    In (Ev_setopt_inorder opt)
       [Ev_setopt_inorder FI_OPT_EFA_SENDRECV_IN_ORDER_ALIGNED_128_BYTES] /\
    nccl_proto_configured state_ordered = true /\
    run_config_endpoint dom_p4d_sendrecv [mk_obs (- FI_EOPNOTSUPP) false] state_ordered =
      Some outs /\
    Forall2 (fun o '(r, s', lg) =>
               s' = state_ordered /\
               ((r <> 0 /\ early_reject dom_p4d_sendrecv o r /\
                 forall opt', ~ In (Ev_setopt_inorder opt') lg) \/
                (In (Ev_setopt_inorder opt) lg /\ (inorder_setopt_rc o <> 0 -> r <> 0))))
      [mk_obs (- FI_EOPNOTSUPP) false] outs.
Proof.
  assert (H : platform_config_endpoint dom_p4d_sendrecv (mk_obs 0 false) neg_state0 =
    Some (0, state_ordered, [Ev_setopt_inorder FI_OPT_EFA_SENDRECV_IN_ORDER_ALIGNED_128_BYTES]))
    by (vm_compute; reflexivity).
  split; [exact H|].
  exact (config_endpoint_ordered_forever dom_p4d_sendrecv (mk_obs 0 false) neg_state0
           0 state_ordered [Ev_setopt_inorder FI_OPT_EFA_SENDRECV_IN_ORDER_ALIGNED_128_BYTES]
           [mk_obs (- FI_EOPNOTSUPP) false] eq_refl eq_refl H eq_refl).
Defined.

(** C3 fails on "every subsequent call re-attempts": after an RDMA-write
    domain has recorded "ordered", a call on an endpoint whose writes are
    emulated returns [-EINVAL] from the native RDMA-write check without
    setting the in-order option again. *)
Lemma config_endpoint_ordered_no_reattempt :
  platform_config_endpoint dom_p4d_rdma (mk_obs 0 false) neg_state0 =
    Some (0, state_ordered,
          [Ev_getopt_emulated_write;
           Ev_setopt_inorder FI_OPT_EFA_WRITE_IN_ORDER_ALIGNED_128_BYTES;
           Ev_setopt_max_msg_size]) /\
  platform_config_endpoint dom_p4d_rdma (mk_obs 0 true) state_ordered =
    Some (- EINVAL, state_ordered, [Ev_getopt_emulated_write]).
Proof. vm_compute. split; reflexivity. Qed.

(** ** Platform initialisation *)

(** Every variable set in [e] is still set, to the same value, in [e']. *)
Definition env_kept (e e' : gmap string string) : Prop :=
  forall k v, e !! k = Some v -> e' !! k = Some v.

Lemma env_kept_refl (e : gmap string string) : env_kept e e.
Proof. intros k v H. exact H. Qed.

Lemma env_kept_trans (e1 e2 e3 : gmap string string) :
  env_kept e1 e2 -> env_kept e2 e3 -> env_kept e1 e3.
Proof. intros H1 H2 k v H. apply H2, H1, H. Qed.

Lemma setenv_kept (n val : string) (ow : bool) (e : gmap string string) :
  (ow = false \/ e !! n = None) -> env_kept e (setenv n val ow e).
Proof.
  intros Hg k v Hk. unfold setenv. destruct ow.
  - destruct Hg as [Hg|Hg]; [discriminate Hg|].
    rewrite lookup_insert_ne; [exact Hk|]. intros ->. congruence.
  - destruct (e !! n) eqn:En; [exact Hk|].
    rewrite lookup_insert_ne; [exact Hk|]. intros ->. congruence.
Qed.

Lemma set_fork_safe_kept (i : init_input) (e : gmap string string) :
  env_kept e (set_fork_safe i e).
Proof.
  unfold set_fork_safe. destruct (e !! fork_safe_var_name i) eqn:E.
  - apply env_kept_refl.
  - apply setenv_kept. right. exact E.
Qed.

Lemma configure_nvls_option_kept (i : init_input) (e : gmap string string) :
  env_kept e (snd (configure_nvls_option i e)).
Proof.
  unfold configure_nvls_option. destruct (e !! "NCCL_NVLS_ENABLE"%string) eqn:E;
    [apply env_kept_refl|].
  destruct (nccl_get_version i) as [[[] version]|]; try apply env_kept_refl.
  destruct (version <? 21805); [|apply env_kept_refl].
  exact (setenv_kept "NCCL_NVLS_ENABLE" "0" true e (or_intror E)).
Qed.

Lemma set_force_flush_kept (pd : option ec2_platform_data) (e : gmap string string) :
  env_kept e (set_force_flush pd e).
Proof.
  unfold set_force_flush. destruct pd as [p|]; [|apply env_kept_refl].
  destruct (negb (net_flush_required p)); [|apply env_kept_refl].
  destruct (e !! "NCCL_NET_FORCE_FLUSH"%string); [apply env_kept_refl|].
  apply setenv_kept. left. reflexivity.
Qed.

Lemma set_chunk_sizes_kept (e : gmap string string) : env_kept e (set_chunk_sizes e).
Proof.
  unfold set_chunk_sizes. eapply env_kept_trans; apply setenv_kept; left; reflexivity.
Qed.

Lemma set_topology_kept (i : init_input) (e : gmap string string) :
  env_kept e (snd (set_topology i e)).
Proof.
  unfold set_topology. destruct (e !! "NCCL_TOPO_FILE"%string) eqn:E; [apply env_kept_refl|].
  destruct (init_platform_data i) as [p|]; [|apply env_kept_refl].
  destruct (topology p) as [t|]; [|apply env_kept_refl].
  destruct (_ <=? _)%nat; [apply env_kept_refl|].
  apply setenv_kept. right. exact E.
Qed.

(** The overrides a run of [platform_init] must leave alone. *)
Definition overrides_kept (i : init_input) (st st' : init_state) : Prop :=
  env_kept (env st) (env st') /\
  (env st !! "FI_PROVIDER"%string <> None -> provider_filter st' = provider_filter st) /\
  (nic_dup_conns st <> 0 -> nic_dup_conns st' = nic_dup_conns st) /\
  (0 <= p_net_latency i -> net_latency st' = net_latency st) /\
  (p_protocol i <> None -> nccl_ofi_selected_protocol st' = nccl_ofi_selected_protocol st) /\
  (p_domain_per_thread i <> -1 ->
     domain_per_thread st' = domain_per_thread st \/
     domain_per_thread st' = p_domain_per_thread i).

Lemma overrides_kept_set_env (i : init_input) (st st0 : init_state) (e : gmap string string) :
  env_kept (env st) e ->
  (env st !! "FI_PROVIDER"%string <> None -> provider_filter st0 = provider_filter st) ->
  nic_dup_conns st0 = nic_dup_conns st -> net_latency st0 = net_latency st ->
  nccl_ofi_selected_protocol st0 = nccl_ofi_selected_protocol st ->
  domain_per_thread st0 = domain_per_thread st ->
  overrides_kept i st (set_env st0 e).
Proof.
  intros He Hp Hd Hl Hpr Hdp. unfold overrides_kept, set_env; simpl.
  repeat split; auto.
Qed.

Lemma overrides_kept_defaults (i : init_input) (se : bool) (st st0 : init_state)
  (e : gmap string string) :
  env_kept (env st) e ->
  (env st !! "FI_PROVIDER"%string <> None -> provider_filter st0 = provider_filter st) ->
  nic_dup_conns st0 = nic_dup_conns st -> net_latency st0 = net_latency st ->
  nccl_ofi_selected_protocol st0 = nccl_ofi_selected_protocol st ->
  domain_per_thread st0 = domain_per_thread st ->
  overrides_kept i st (init_defaults i se (set_env st0 e)).
Proof.
  intros He Hp Hd Hl Hpr Hdp. unfold overrides_kept, init_defaults, set_env; simpl.
  split; [exact He|]. split; [exact Hp|].
  split.
  { intros Hnz. destruct (init_platform_data i) as [p|]; [|exact Hd].
    rewrite Hd. apply Z.eqb_neq in Hnz. rewrite Hnz. reflexivity. }
  split.
  { intros Hpos. destruct (p_net_latency i <? 0) eqn:E; [|exact Hl].
    apply Z.ltb_lt in E. lia. }
  split.
  { intros Hset. destruct (init_platform_data i) as [p|]; [|exact Hpr].
    destruct (p_protocol i); [exact Hpr|]. contradiction. }
  intros Hne. right. apply Z.eqb_neq in Hne. rewrite Hne. reflexivity.
Qed.

(** The steps of [platform_init] up to its first failure. *)
Lemma platform_init_steps (i : init_input) (st : init_state) :
  let '(pf, select_efa) :=
    match env st !! "FI_PROVIDER"%string with
    | None => (Some "efa"%string, true)
    | Some p => (provider_filter st, strcmp_eq p "efa")
    end in
  let st0 := {| env := env st; provider_filter := pf; nic_dup_conns := nic_dup_conns st;
                net_latency := net_latency st;
                nccl_ofi_selected_protocol := nccl_ofi_selected_protocol st;
                domain_per_thread := domain_per_thread st |} in
  let e2 := snd (configure_nvls_option i (set_fork_safe i (env st))) in
  let e6 := snd (set_topology i (set_chunk_sizes (set_force_flush (init_platform_data i) e2))) in
  (fst (configure_nvls_option i (set_fork_safe i (env st))) <> 0 /\
   platform_init i st = (fst (configure_nvls_option i (set_fork_safe i (env st))), set_env st0 e2)) \/
  (fst (configure_nvls_option i (set_fork_safe i (env st))) = 0 /\
   fst (set_topology i (set_chunk_sizes (set_force_flush (init_platform_data i) e2))) <> 0 /\
   platform_init i st =
     (fst (set_topology i (set_chunk_sizes (set_force_flush (init_platform_data i) e2))),
      set_env st0 e6)) \/
  (fst (configure_nvls_option i (set_fork_safe i (env st))) = 0 /\
   fst (set_topology i (set_chunk_sizes (set_force_flush (init_platform_data i) e2))) = 0 /\
   platform_init i st = (0, init_defaults i select_efa (set_env st0 e6))).
Proof.
  unfold platform_init.
  destruct (env st !! "FI_PROVIDER"%string) as [p|]; cbn zeta; cbn [env].
  all: destruct (configure_nvls_option i (set_fork_safe i (env st))) as [rn e2]; cbn [fst snd].
  all: destruct (rn =? 0) eqn:Hrn; cbn [negb];
         [apply Z.eqb_eq in Hrn | apply Z.eqb_neq in Hrn; left; split; [exact Hrn|reflexivity]].
  all: destruct (set_topology i _) as [rt e6]; cbn [fst snd].
  all: destruct (rt =? 0) eqn:Hrt; cbn [negb];
         [apply Z.eqb_eq in Hrt; right; right; split; [exact Hrn|]; split; [exact Hrt|reflexivity]
         |apply Z.eqb_neq in Hrt; right; left; split; [exact Hrn|]; split; [exact Hrt|reflexivity]].
Qed.

(** C6 (as the code does it): [platform_init] never changes or removes an
    environment variable that is already set (FI_PROVIDER, the fork-safety
    flag, NCCL_NVLS_ENABLE, NCCL_NET_FORCE_FLUSH, NCCL_TOPO_FILE, the two
    chunk sizes, or any other), nor [*provider_filter] when FI_PROVIDER is
    set, nor the protocol when the protocol parameter is set.  The numeric
    tunables are left alone only when they do not hold the value read as
    "unset": [nic_dup_conns] other than 0, a latency parameter that is not
    negative, and a domain-per-thread parameter other than -1 (which is
    then used as is).  When the call returns 0, the "unset" values are
    replaced: with platform data [p], a duplicate count of 0 by
    [default_dup_conns p], a negative latency parameter by [latency p]
    (150 when that is negative) and a domain-per-thread parameter of -1 by
    [pd_domain_per_thread p]; without platform data the duplicate count
    stays, the latency becomes 150 and domain-per-thread 0. *)
Theorem platform_init_keeps_overrides (i : init_input) (st : init_state) :
  let '(r, st') := platform_init i st in
  ((forall k v, env st !! k = Some v -> env st' !! k = Some v) /\
   (env st !! "FI_PROVIDER"%string <> None -> provider_filter st' = provider_filter st) /\
   (nic_dup_conns st <> 0 -> nic_dup_conns st' = nic_dup_conns st) /\
   (0 <= p_net_latency i -> net_latency st' = net_latency st) /\
   (p_protocol i <> None -> nccl_ofi_selected_protocol st' = nccl_ofi_selected_protocol st) /\
   (p_domain_per_thread i <> -1 ->
      domain_per_thread st' = domain_per_thread st \/
      domain_per_thread st' = p_domain_per_thread i)) /\
  (r = 0 ->
   match init_platform_data i with
   | Some p =>
       (nic_dup_conns st = 0 -> nic_dup_conns st' = default_dup_conns p) /\
       (p_net_latency i < 0 ->
          net_latency st' = if latency p >=? 0 then latency p else 150) /\
       (p_domain_per_thread i = -1 -> domain_per_thread st' = pd_domain_per_thread p)
   | None =>
       nic_dup_conns st' = nic_dup_conns st /\
       (p_net_latency i < 0 -> net_latency st' = 150) /\
       (p_domain_per_thread i = -1 -> domain_per_thread st' = 0)
   end).
Proof.
  assert (G : fst (platform_init i st) = 0 ->
   match init_platform_data i with
   | Some p =>
       (nic_dup_conns st = 0 -> nic_dup_conns (snd (platform_init i st)) = default_dup_conns p) /\
       (p_net_latency i < 0 ->
          net_latency (snd (platform_init i st)) =
            if latency p >=? 0 then latency p else 150) /\
       (p_domain_per_thread i = -1 ->
          domain_per_thread (snd (platform_init i st)) = pd_domain_per_thread p)
   | None =>
       nic_dup_conns (snd (platform_init i st)) = nic_dup_conns st /\
       (p_net_latency i < 0 -> net_latency (snd (platform_init i st)) = 150) /\
       (p_domain_per_thread i = -1 -> domain_per_thread (snd (platform_init i st)) = 0)
   end).
  { intros H0. pose proof (platform_init_steps i st) as Hs.
    destruct (env st !! "FI_PROVIDER"%string); cbn zeta in Hs.
    all: destruct Hs as [(Hn & Hp) | [(_ & Ht & Hp) | (_ & _ & ->)]];
           [rewrite Hp in H0; contradiction|rewrite Hp in H0; contradiction|].
    all: cbn [snd]; unfold init_defaults, set_env;
           cbn [nic_dup_conns net_latency domain_per_thread].
    all: destruct (init_platform_data i) as [p|].
    all: repeat split; intros Hx;
           rewrite ?(proj2 (Z.eqb_eq _ _) Hx), ?(proj2 (Z.ltb_lt _ _) Hx); reflexivity. }
  assert (H : let '(r, st') := platform_init i st in overrides_kept i st st').
  2:{ destruct (platform_init i st) as [r st']. split; [exact H|exact G]. }
  unfold platform_init.
  destruct (env st !! "FI_PROVIDER"%string) as [p|] eqn:Ef; simpl.
  all: pose proof (configure_nvls_option_kept i (set_fork_safe i (env st))) as Hn.
  all: destruct (configure_nvls_option i (set_fork_safe i (env st))) as [rn e2]; simpl in Hn.
  all: assert (He2 : env_kept (env st) e2)
         by (eapply env_kept_trans; [apply set_fork_safe_kept|exact Hn]).
  all: destruct (negb (rn =? 0));
         [apply overrides_kept_set_env; simpl; auto; intros Hc; congruence|].
  all: pose proof (set_topology_kept i
         (set_chunk_sizes (set_force_flush (init_platform_data i) e2))) as Ht.
  all: destruct (set_topology i _) as [rt e6]; simpl in Ht.
  all: assert (He6 : env_kept (env st) e6)
         by (eapply env_kept_trans; [exact He2|];
             eapply env_kept_trans; [apply set_force_flush_kept|];
             eapply env_kept_trans; [apply set_chunk_sizes_kept|exact Ht]).
  all: destruct (negb (rt =? 0));
         [apply overrides_kept_set_env | apply overrides_kept_defaults];
         simpl; auto; intros Hc; congruence.
Qed.

(** A p3dn.24xlarge start-up with the tunables at their "unset" values. *)
Definition init_p3dn : init_input :=
  {| fi_major := 1; fi_minor := 18; nccl_get_version := Some (true, 21903);
     init_platform_data := platform_data_map !! 2%nat; xml_dir := "/opt/xml";
     p_net_latency := -1; p_protocol := None; p_domain_per_thread := -1 |}.

Definition st_dup0 : init_state :=
  {| env := ∅; provider_filter := None; nic_dup_conns := 0; net_latency := 0;
     nccl_ofi_selected_protocol := "SENDRECV"; domain_per_thread := 0 |}.

(** A user who has set FI_PROVIDER, NCCL_NET_FORCE_FLUSH and a duplicate count. *)
Definition st_user : init_state :=
  {| env := <["FI_PROVIDER" := "efa"]> (<["NCCL_NET_FORCE_FLUSH" := "1"]> ∅);
     provider_filter := Some "efa;tcp"; nic_dup_conns := 2; net_latency := 0;
     nccl_ofi_selected_protocol := "SENDRECV"; domain_per_thread := 0 |}%string.

Lemma platform_init_keeps_overrides_witness :
  nic_dup_conns (snd (platform_init init_p3dn st_dup0)) = 4.
Proof.
  pose proof (platform_init_keeps_overrides init_p3dn st_dup0) as H.
  destruct (platform_init init_p3dn st_dup0) as [r st'] eqn:E.
  assert (Hr : r = 0) by (vm_compute in E; injection E; intros; subst; reflexivity).
  destruct H as [_ G]. specialize (G Hr). vm_compute in G. cbn [snd].
  apply (proj1 G). reflexivity.
Defined.

(** C6 does not hold as stated: on p3dn.24xlarge a duplicate-connection count
    set to 0 before initialisation is replaced by the platform default 4. *)
Lemma platform_init_overwrites_dup_conns :
  nic_dup_conns st_dup0 = 0 /\
  fst (platform_init init_p3dn st_dup0) = 0 /\
  nic_dup_conns (snd (platform_init init_p3dn st_dup0)) = 4.
Proof. vm_compute. repeat split; reflexivity. Qed.

(* ================================================================== *)
(** * Further properties of the code *)

(** ** Identity and catalogue *)

(** [c] occurs in [s]. *)
Fixpoint str_has (c : ascii) (s : string) : bool :=
  match s with
  | EmptyString => false
  | String c' r => Ascii.eqb c' c || str_has c r
  end.

Lemma run_get_platform_type_cached_map (inps : list pt_input) (c : pt_cache) :
  pt_init c = true ->
  run_get_platform_type inps c = map (fun _ => (platform_type c, false)) inps.
Proof.
  intros H. induction inps as [|inp r IH]; simpl; [reflexivity|].
  rewrite (get_platform_type_cached inp c H). f_equal. exact IH.
Qed.

(** The first call reads the first line, up to the newline, even when the
    file could not be read further; every later call returns that line
    without touching the file system. *)
Theorem get_platform_type_first_line (inp : pt_input) (inps : list pt_input)
  (line rest : string) :
  (forall k c, String.get k line = Some c -> c <> "010"%char) ->
  product_name inp = Some (String.append line (String "010"%char rest)) ->
  alloc_ok inp = true ->
  run_get_platform_type (inp :: inps) pt_cache0 =
    (Some line, true) :: map (fun _ => (Some line, false)) inps.
Proof.
  intros Hno Hp Ha. simpl. unfold get_platform_type at 1. simpl.
  rewrite Hp, Ha. simpl. rewrite (read_first_line_newline line rest (read_error inp) Hno).
  rewrite (run_get_platform_type_cached_map inps
             {| pt_init := true; platform_type := Some line |} eq_refl).
  reflexivity.
Qed.

Lemma get_platform_type_first_line_witness :
  run_get_platform_type
    [{| product_name := Some "trn1.32xlarge
extra"%string; read_error := true; alloc_ok := true |};
     {| product_name := None; read_error := false; alloc_ok := true |}] pt_cache0 =
  [(Some "trn1.32xlarge"%string, true); (Some "trn1.32xlarge"%string, false)].
Proof.
  apply (get_platform_type_first_line
           {| product_name := Some "trn1.32xlarge
extra"%string; read_error := true; alloc_ok := true |}
           [{| product_name := None; read_error := false; alloc_ok := true |}]
           "trn1.32xlarge" "extra").
  - intros k c Hk. do 13 (destruct k as [|k]; [injection Hk as <-; discriminate|]).
    discriminate Hk.
  - reflexivity.
  - reflexivity.
Defined.

Lemma read_first_line_no_newline (s : string) (err : bool) :
  str_has "010"%char s = false ->
  read_first_line s err = (String.append s (String EOF_char EmptyString), err).
Proof.
  induction s as [|c r IH]; simpl; intros H; [reflexivity|].
  apply orb_false_iff in H as [Hc Hr]. rewrite Hc, (IH Hr). reflexivity.
Qed.

Lemma c_str_no_nul (s : string) : str_has "000"%char s = false -> c_str s = s.
Proof.
  induction s as [|c r IH]; simpl; intros H; [reflexivity|].
  apply orb_false_iff in H as [Hc Hr]. rewrite Hc, (IH Hr). reflexivity.
Qed.

Lemma str_has_app_last (c : ascii) (s : string) :
  str_has c (String.append s (String c EmptyString)) = true.
Proof.
  induction s as [|c' r IH]; simpl.
  - rewrite Ascii.eqb_refl. reflexivity.
  - rewrite IH, orb_true_r. reflexivity.
Qed.

Lemma str_has_app (c : ascii) (s t : string) :
  str_has c (String.append s t) = str_has c s || str_has c t.
Proof.
  induction s as [|c' r IH]; simpl; [reflexivity|]. rewrite IH, orb_assoc. reflexivity.
Qed.

Lemma platform_names_plain :
  Forall (fun p => str_has EOF_char (name p) = false /\ str_has "000"%char (name p) = false)
    platform_data_map.
Proof. repeat constructor. Qed.

(** A product name that has no newline and no NUL byte never selects a
    catalogue entry: the stored [(char)EOF] byte makes the comparison with
    every name fail. *)
Theorem get_platform_data_unterminated_unmatched (inp : pt_input) (s : string) :
  product_name inp = Some s ->
  str_has "010"%char s = false -> str_has "000"%char s = false ->
  snd (get_platform_data inp pt_cache0 pd_cache0) = None.
Proof.
  intros Hp Hnl Hnul. unfold get_platform_data, get_platform_data_tbl. simpl.
  unfold get_platform_type. simpl. rewrite Hp.
  destruct (alloc_ok inp); simpl; [|reflexivity].
  rewrite (read_first_line_no_newline s (read_error inp) Hnl).
  destruct (read_error inp); simpl; [reflexivity|].
  set (t := String.append s (String EOF_char EmptyString)).
  destruct (scan_table_spec platform_data_map t 0 None) as [[Hr _] | (j & e & _ & Hj & Hm & _)].
  - exact Hr.
  - exfalso. pose proof platform_names_plain as Hall.
    rewrite Forall_lookup in Hall. destruct (Hall j e Hj) as [Heof Hz].
    unfold strcmp_eq in Hm. apply String.eqb_eq in Hm.
    rewrite (c_str_no_nul (name e) Hz) in Hm.
    assert (Ht : c_str t = t).
    { apply c_str_no_nul. unfold t. rewrite str_has_app, Hnul. reflexivity. }
    rewrite Ht in Hm. rewrite <- Hm in Heof. unfold t in Heof.
    rewrite str_has_app_last in Heof. discriminate Heof.
Qed.

Lemma get_platform_data_unterminated_unmatched_witness :
  snd (get_platform_data {| product_name := Some "p4d.24xlarge"%string; read_error := false;
                            alloc_ok := true |} pt_cache0 pd_cache0) = None.
Proof.
  apply (get_platform_data_unterminated_unmatched _ "p4d.24xlarge"); reflexivity.
Defined.

Lemma platform_names_nodup : NoDup (map name platform_data_map).
Proof. vm_compute. repeat constructor; set_solver. Qed.

(** On the real table the names are distinct, so the entry selected is the
    one whose name is the platform type (cut at its first NUL byte), and
    no other. *)
Theorem get_platform_data_unique_match (inp : pt_input) (ty : string) (idx : nat) :
  snd (fst (get_platform_type inp pt_cache0)) = Some ty ->
  (snd (get_platform_data inp pt_cache0 pd_cache0) = Some idx <->
   exists p, platform_data_map !! idx = Some p /\ c_str ty = name p).
Proof.
  intros Ht. unfold get_platform_data, get_platform_data_tbl. cbn [pd_init pd_cache0].
  destruct (get_platform_type inp pt_cache0) as [[c' t] tch]. simpl in Ht. subst t.
  cbn [snd platform_data pd_cache0].
  assert (Hname : forall p, p ∈ platform_data_map -> c_str (name p) = name p).
  { intros p Hin. pose proof platform_names_plain as Hall. rewrite Forall_forall in Hall.
    apply c_str_no_nul, (Hall p Hin). }
  destruct (scan_table_spec platform_data_map ty 0 None) as [[Hr Hno] | (j & e & Hr & Hj & Hm & _)];
    rewrite Hr; split.
  - discriminate.
  - intros (p & Hp & Heq). specialize (Hno idx p Hp). unfold strcmp_eq in Hno.
    rewrite Hname in Hno by (eapply list_elem_of_lookup_2; exact Hp).
    rewrite Heq, String.eqb_refl in Hno. discriminate Hno.
  - intros H. injection H as <-. exists e. split; [exact Hj|].
    unfold strcmp_eq in Hm. apply String.eqb_eq in Hm.
    rewrite Hname in Hm by (eapply list_elem_of_lookup_2; exact Hj).
    exact Hm.
  - intros (p & Hp & Heq). simpl. f_equal.
    unfold strcmp_eq in Hm. apply String.eqb_eq in Hm.
    rewrite Hname in Hm by (eapply list_elem_of_lookup_2; exact Hj).
    eapply (NoDup_lookup (map name platform_data_map)); [exact platform_names_nodup| |].
    + rewrite list_lookup_fmap, Hj. simpl. reflexivity.
    + rewrite list_lookup_fmap, Hp. simpl. rewrite <- Hm, Heq. reflexivity.
Qed.

Lemma get_platform_data_unique_match_witness :
  snd (get_platform_data {| product_name := Some "p5.48xlarge
"%string; read_error := false; alloc_ok := true |} pt_cache0 pd_cache0) = Some 3%nat <->
  exists p, platform_data_map !! 3%nat = Some p /\ c_str "p5.48xlarge" = name p.
Proof.
  apply (get_platform_data_unique_match _ "p5.48xlarge" 3). vm_compute. reflexivity.
Defined.

(** ** GUID parsing *)

Lemma fgets_read_prefix (s1 s2 : string) :
  fgets_read (String.length s1) (String.append s1 s2) = fgets_read (String.length s1) s1.
Proof.
  induction s1 as [|c r IH]; simpl; [reflexivity|].
  destruct (Ascii.eqb c "010"%char); [reflexivity|]. rewrite IH. reflexivity.
Qed.

(** [fgets(guid, 20, fp)] reads at most 19 bytes, so whatever follows the
    first 19 bytes of node_guid (a newline, or anything else) has no
    effect on the result. *)
Theorem get_rail_vf_idx_first_19 (fs : guid_fs) (info : fi_info) (s1 s2 : string) :
  String.length s1 = 19%nat ->
  fs (dev_name info) = Some (String.append s1 s2) ->
  get_rail_vf_idx fs info = get_rail_vf_idx (fun _ => Some s1) info.
Proof.
  intros Hl Hf. unfold get_rail_vf_idx. rewrite Hf.
  destruct s1 as [|c r]; [discriminate Hl|].
  unfold fgets. cbn [String.append]. replace (20 - 1)%nat with (String.length (String c r)) by (rewrite Hl; reflexivity).
  rewrite (fgets_read_prefix (String c r) s2). reflexivity.
Qed.

Lemma get_rail_vf_idx_first_19_witness :
  get_rail_vf_idx (fun _ => Some "0000:0000:0000:0001trailing bytes"%string)
    {| info_id := 0; dev_name := "rdmap0s0" |} =
  get_rail_vf_idx (fun _ => Some "0000:0000:0000:0001"%string)
    {| info_id := 0; dev_name := "rdmap0s0" |}.
Proof.
  apply (get_rail_vf_idx_first_19 _ _ "0000:0000:0000:0001" "trailing bytes");
    reflexivity.
Defined.

Lemma substring_length (s : string) : forall n m,
  (n + m <= String.length s)%nat -> String.length (String.substring n m s) = m.
Proof.
  induction s as [|c r IH]; intros n m H; simpl in H.
  - assert (n = 0%nat /\ m = 0%nat) as [-> ->] by lia. reflexivity.
  - destruct n as [|n].
    + destruct m as [|m]; [reflexivity|]. simpl. f_equal. apply IH. lia.
    + simpl. apply IH. lia.
Qed.

Lemma strtol10_two_chars (c1 c2 : ascii) (v : Z) :
  strtol10 (String c1 (String c2 EmptyString)) = (v, 2%nat) -> -9 <= v <= 99.
Proof.
  unfold strtol10. cbn [skip_space].
  destruct (c_isspace c1) eqn:S1; destruct (c_isspace c2) eqn:S2; cbn;
    repeat match goal with
    | |- context [Ascii.eqb ?a ?b] => destruct (Ascii.eqb a b) eqn:?; cbn
    | |- context [c_digit10 ?c] =>
        let E := fresh "E" in
        destruct (c_digit10 c) eqn:E; cbn;
        [apply c_digit10_char in E as (_ & _ & _ & ?)|]
    end;
    intros Hres; injection Hres; intros; subst; lia.
Qed.

(** Besides its two error codes, [get_rail_vf_idx] only returns values in
    [-9, 99]: the conversion reads two characters in base 10 (a sign or
    blank followed by a digit, or two digits). *)
Theorem get_rail_vf_idx_range (fs : guid_fs) (info : fi_info) :
  get_rail_vf_idx fs info = - EIO \/ get_rail_vf_idx fs info = - EINVAL \/
  (-9 <= get_rail_vf_idx fs info <= 99).
Proof.
  unfold get_rail_vf_idx.
  destruct (fs (dev_name info)) as [contents|]; [|left; reflexivity].
  destruct (fgets 20 contents) as [guid|]; [|left; reflexivity].
  destruct (Nat.eqb (strlen guid) 19) eqn:Hl; cbn [negb]; [|right; left; reflexivity].
  destruct (match String.get 14 (c_str guid) with
            | Some c => Ascii.eqb c ":"%char | None => false end);
    cbn [negb]; [|right; left; reflexivity].
  apply Nat.eqb_eq in Hl. unfold strlen in Hl.
  pose proof (substring_length (c_str guid) 17 2 ltac:(lia)) as Hs.
  destruct (String.substring 17 2 (c_str guid)) as [|c1 [|c2 [|c3 r]]];
    try discriminate Hs.
  destruct (strtol10 (String c1 (String c2 EmptyString))) as [v used] eqn:Ht.
  destruct (negb (used =? 2)%nat) eqn:Hu; [right; left; reflexivity|].
  apply negb_false_iff, Nat.eqb_eq in Hu. subst used.
  right; right. exact (strtol10_two_chars c1 c2 v Ht).
Qed.

(** ** Rail sorting *)

(** The descriptors of [l] whose GUID gives VF index [v], in list order. *)
Definition vf_filter (fs : guid_fs) (v : Z) (l : list fi_info) : list fi_info :=
  List.filter (fun x => get_rail_vf_idx fs x =? v) l.

(** Where the assignment loop puts the rails it has seen: the VF-0 rails
    [f0] from slot 0 on, the VF-1 rails [f1] from slot 2 on. *)
Definition rail_cell (f0 f1 : list fi_info) (j : nat) : option fi_info :=
  if (j <? length f0)%nat then f0 !! j
  else if (2 <=? j)%nat then f1 !! (j - 2)%nat else None.

Definition rail_layout (n : nat) (f0 f1 : list fi_info) : list (option fi_info) :=
  rail_cell f0 f1 <$> seq 0 n.

Definition vf01 (fs : guid_fs) (x : fi_info) : Prop :=
  get_rail_vf_idx fs x = 0 \/ get_rail_vf_idx fs x = 1.

Lemma rail_layout_length (n : nat) (f0 f1 : list fi_info) :
  length (rail_layout n f0 f1) = n.
Proof. unfold rail_layout. rewrite length_fmap, length_seq. reflexivity. Qed.

Lemma rail_layout_lookup (n : nat) (f0 f1 : list fi_info) (j : nat) :
  rail_layout n f0 f1 !! j = if (j <? n)%nat then Some (rail_cell f0 f1 j) else None.
Proof.
  unfold rail_layout. rewrite list_lookup_fmap.
  destruct (j <? n)%nat eqn:E.
  - apply Nat.ltb_lt in E. rewrite lookup_seq_lt by exact E. reflexivity.
  - apply Nat.ltb_ge in E. rewrite lookup_seq_ge by exact E. reflexivity.
Qed.

Lemma rail_layout_add0 (n : nat) (f0 f1 : list fi_info) (x : fi_info) :
  (length f0 < n)%nat ->
  <[length f0 := Some x]> (rail_layout n f0 f1) = rail_layout n (f0 ++ [x]) f1.
Proof.
  intros Hn. apply list_eq. intros j. rewrite list_lookup_insert, !rail_layout_lookup.
  rewrite rail_layout_length. unfold rail_cell. rewrite length_app. simpl.
  destruct (decide (length f0 = j /\ (length f0 < n)%nat)) as [[<- _]|Hne].
  - rewrite (proj2 (Nat.ltb_lt _ _) Hn), (proj2 (Nat.ltb_lt _ _) (ltac:(lia) : (length f0 < length f0 + 1)%nat)).
    rewrite lookup_app_r by lia. rewrite Nat.sub_diag. reflexivity.
  - assert (j <> length f0) by (intros ->; tauto).
    destruct (j <? n)%nat; [|reflexivity]. f_equal.
    destruct (j <? length f0)%nat eqn:E1.
    + apply Nat.ltb_lt in E1. rewrite (proj2 (Nat.ltb_lt _ _) (ltac:(lia) : (j < length f0 + 1)%nat)).
      rewrite lookup_app_l by lia. reflexivity.
    + apply Nat.ltb_ge in E1. rewrite (proj2 (Nat.ltb_ge _ _) (ltac:(lia) : (length f0 + 1 <= j)%nat)).
      reflexivity.
Qed.

Lemma rail_layout_add1 (n : nat) (f0 f1 : list fi_info) (x : fi_info) :
  (2 + length f1 < n)%nat -> (length f0 <= 2 + length f1)%nat ->
  <[(2 + length f1)%nat := Some x]> (rail_layout n f0 f1) = rail_layout n f0 (f1 ++ [x]).
Proof.
  intros Hn Ha. apply list_eq. intros j. rewrite list_lookup_insert, !rail_layout_lookup.
  rewrite rail_layout_length. unfold rail_cell.
  destruct (decide ((2 + length f1)%nat = j /\ (2 + length f1 < n)%nat)) as [[<- _]|Hne].
  - rewrite (proj2 (Nat.ltb_lt _ _) Hn), (proj2 (Nat.ltb_ge _ _) Ha). simpl.
    rewrite Nat.sub_0_r, lookup_app_r by lia. rewrite Nat.sub_diag. reflexivity.
  - assert (j <> (2 + length f1)%nat) by (intros ->; tauto).
    destruct (j <? n)%nat; [|reflexivity]. f_equal.
    destruct (j <? length f0)%nat; [reflexivity|].
    destruct (2 <=? j)%nat eqn:E2; [|reflexivity]. apply Nat.leb_le in E2.
    destruct (decide (j - 2 < length f1)%nat).
    + rewrite lookup_app_l by lia. reflexivity.
    + rewrite !lookup_ge_None_2 by (rewrite ?length_app; simpl; lia). reflexivity.
Qed.

Lemma vf_filter_snoc (fs : guid_fs) (v : Z) (p : list fi_info) (x : fi_info) :
  vf_filter fs v (p ++ [x]) =
  if get_rail_vf_idx fs x =? v then vf_filter fs v p ++ [x] else vf_filter fs v p.
Proof.
  unfold vf_filter. rewrite List.filter_app. simpl.
  destruct (get_rail_vf_idx fs x =? v); [reflexivity|]. apply app_nil_r.
Qed.

(** The assignment loop, from a state reached after the rails [p]: when it
    completes, it has read [k] more rails, all of VF index 0 or 1, and
    its array is the layout of all rails read. *)
Lemma sort_loop_layout (fs : guid_fs) (n k : nat) : forall (l p : list fi_info) arr',
  sort_loop fs k l
    [Z.of_nat (length (vf_filter fs 0 p)); 2 + Z.of_nat (length (vf_filter fs 1 p))]
    (rail_layout n (vf_filter fs 0 p) (vf_filter fs 1 p)) = SortFilled arr' ->
  (k <= length l)%nat /\ Forall (vf01 fs) (take k l) /\
  arr' = rail_layout n (vf_filter fs 0 (p ++ take k l)) (vf_filter fs 1 (p ++ take k l)).
Proof.
  induction k as [|k IH]; intros l p arr' H.
  - simpl in H. injection H as <-. rewrite take_0, app_nil_r.
    split; [lia|]. split; [constructor|reflexivity].
  - destruct l as [|x rest]; [discriminate H|]. cbn [sort_loop] in H.
    set (a := length (vf_filter fs 0 p)) in H. set (b := length (vf_filter fs 1 p)) in H.
    destruct ((get_rail_vf_idx fs x <? 0) || (get_rail_vf_idx fs x >=? 2)) eqn:Hv;
      [discriminate H|].
    apply orb_false_iff in Hv as [Hv1 Hv2]. apply Z.ltb_ge in Hv1.
    rewrite Z.geb_leb in Hv2. apply Z.leb_gt in Hv2.
    assert (Hx : get_rail_vf_idx fs x = 0 \/ get_rail_vf_idx fs x = 1) by lia.
    assert (Hnext : forall arr2,
      sort_loop fs k rest
        [Z.of_nat (length (vf_filter fs 0 (p ++ [x])));
         2 + Z.of_nat (length (vf_filter fs 1 (p ++ [x])))]
        (rail_layout n (vf_filter fs 0 (p ++ [x])) (vf_filter fs 1 (p ++ [x]))) = SortFilled arr2 ->
      (S k <= length (x :: rest))%nat /\ Forall (vf01 fs) (take (S k) (x :: rest)) /\
      arr2 = rail_layout n (vf_filter fs 0 (p ++ take (S k) (x :: rest)))
                           (vf_filter fs 1 (p ++ take (S k) (x :: rest)))).
    { intros arr2 H2. destruct (IH rest (p ++ [x]) arr2 H2) as (Hk & Hf & Ha).
      split; [simpl; lia|]. split; [constructor; [exact Hx|exact Hf]|].
      rewrite Ha, <- app_assoc. reflexivity. }
    destruct Hx as [Hx|Hx]; rewrite Hx in H.
    + change (Z.to_nat 0) with 0%nat in H.
      change ([Z.of_nat a; 2 + Z.of_nat b] !! 0%nat) with (Some (Z.of_nat a)) in H.
      change (<[0%nat := Z.of_nat a + 1]> [Z.of_nat a; 2 + Z.of_nat b])
        with [Z.of_nat a + 1; 2 + Z.of_nat b] in H.
      cbv beta iota in H. rewrite Nat2Z.id in H.
      destruct (rail_layout n (vf_filter fs 0 p) (vf_filter fs 1 p) !! a) as [[c|]|] eqn:Hc;
        try discriminate H.
      assert (Han : (a < n)%nat).
      { rewrite rail_layout_lookup in Hc. destruct (a <? n)%nat eqn:E; [|discriminate Hc].
        apply Nat.ltb_lt, E. }
      rewrite (rail_layout_add0 n _ _ x Han) in H.
      apply Hnext. rewrite !vf_filter_snoc, Hx. simpl. rewrite length_app. simpl.
      rewrite Nat2Z.inj_add. exact H.
    + change (Z.to_nat 1) with 1%nat in H.
      change ([Z.of_nat a; 2 + Z.of_nat b] !! 1%nat) with (Some (2 + Z.of_nat b)) in H.
      change (<[1%nat := 2 + Z.of_nat b + 1]> [Z.of_nat a; 2 + Z.of_nat b])
        with [Z.of_nat a; 2 + Z.of_nat b + 1] in H.
      cbv beta iota in H.
      rewrite Z2Nat.inj_add, Nat2Z.id in H by lia.
      change (Z.to_nat 2 + b)%nat with (2 + b)%nat in H.
      destruct (rail_layout n (vf_filter fs 0 p) (vf_filter fs 1 p) !! (2 + b)%nat)
        as [[c|]|] eqn:Hc; try discriminate H.
      rewrite rail_layout_lookup in Hc. destruct (2 + b <? n)%nat eqn:E; [|discriminate Hc].
      apply Nat.ltb_lt in E. injection Hc as Hc. unfold rail_cell in Hc.
      assert (Hab : (a <= 2 + b)%nat).
      { destruct (decide (2 + b < a)%nat) as [E2|E2]; [exfalso|lia].
        unfold a in *. change (S (S b)) with (2 + b)%nat in Hc.
        rewrite (proj2 (Nat.ltb_lt _ _) E2) in Hc.
        apply lookup_lt_is_Some_2 in E2 as [y Hy]. rewrite Hy in Hc. discriminate Hc. }
      unfold a, b in *. rewrite (rail_layout_add1 n _ _ x E Hab) in H.
      apply Hnext. rewrite !vf_filter_snoc, Hx. simpl. rewrite length_app. simpl.
      replace (2 + Z.of_nat (length (vf_filter fs 1 p) + 1))
        with (2 + Z.of_nat (length (vf_filter fs 1 p)) + 1) by lia.
      exact H.
Qed.

Lemma link_sorted_some (arr : list (option fi_info)) (l' : list fi_info) :
  link_sorted arr = Some l' -> arr = Some <$> l'.
Proof.
  revert l'. induction arr as [|[i|] r IH]; intros l' H; simpl in H.
  - injection H as <-. reflexivity.
  - destruct (link_sorted r) as [l|] eqn:E; [|discriminate H]. injection H as <-.
    simpl. f_equal. apply IH. reflexivity.
  - discriminate H.
Qed.

Lemma vf_filter_lengths (fs : guid_fs) (p : list fi_info) :
  Forall (vf01 fs) p ->
  (length (vf_filter fs 0 p) + length (vf_filter fs 1 p))%nat = length p.
Proof.
  induction 1 as [|x r Hx _ IH]; [reflexivity|]. unfold vf_filter in *. simpl.
  destruct Hx as [Hx|Hx]; rewrite Hx; simpl; lia.
Qed.

Lemma vf_filter_perm (fs : guid_fs) (p : list fi_info) :
  Forall (vf01 fs) p -> Permutation (vf_filter fs 0 p ++ vf_filter fs 1 p) p.
Proof.
  induction 1 as [|x r Hx _ IH]; [reflexivity|]. unfold vf_filter in *. simpl.
  destruct Hx as [Hx|Hx]; rewrite Hx; simpl.
  - constructor. exact IH.
  - rewrite <- Permutation_middle. constructor. exact IH.
Qed.

(** A completed assignment loop followed by a successful relinking gives
    the VF-0 rails, then the VF-1 rails, each in list order, out of the
    first [num_rails] descriptors; and there are VF-1 rails only when
    exactly two are VF-0. *)
Lemma sort_core_partition (fs : guid_fs) (l : list fi_info) (num_rails : Z)
  (arr : list (option fi_info)) (l' : list fi_info) :
  sort_rails_core fs l num_rails = SortFilled arr -> link_sorted arr = Some l' ->
  let p := take (Z.to_nat num_rails) l in
  (Z.to_nat num_rails <= length l)%nat /\ Forall (vf01 fs) p /\
  l' = vf_filter fs 0 p ++ vf_filter fs 1 p /\
  (vf_filter fs 1 p = [] \/ length (vf_filter fs 0 p) = 2%nat).
Proof.
  intros Hc Hl p. unfold sort_rails_core in Hc.
  set (n := Z.to_nat num_rails) in *.
  assert (H0 : replicate n (@None fi_info) = rail_layout n (vf_filter fs 0 []) (vf_filter fs 1 [])).
  { apply list_eq. intros j. rewrite rail_layout_lookup. unfold rail_cell. simpl.
    destruct (j <? n)%nat eqn:E.
    - apply Nat.ltb_lt in E. rewrite lookup_replicate_2 by exact E.
      destruct j as [|[|j]]; reflexivity.
    - apply Nat.ltb_ge in E. apply lookup_replicate_None. exact E. }
  rewrite H0 in Hc.
  destruct (sort_loop_layout fs n n l [] arr Hc) as (Hk & Hf & Ha). simpl in Ha.
  fold p in Hf, Ha. apply link_sorted_some in Hl. rewrite Ha in Hl. clear Ha.
  pose proof (vf_filter_lengths fs p Hf) as Hlen.
  assert (Hp : length p = n) by (unfold p; rewrite length_take; lia).
  remember (vf_filter fs 0 p) as f0 eqn:Ef0. remember (vf_filter fs 1 p) as f1 eqn:Ef1.
  assert (Hpt : forall j, (j < n)%nat -> Some <$> (l' !! j) = Some (rail_cell f0 f1 j)).
  { intros j Hj. rewrite <- list_lookup_fmap, <- Hl, rail_layout_lookup.
    rewrite (proj2 (Nat.ltb_lt _ _) Hj). reflexivity. }
  assert (Hfill : forall j, (j < n)%nat -> is_Some (rail_cell f0 f1 j)).
  { intros j Hj. specialize (Hpt j Hj). destruct (l' !! j); [|discriminate Hpt].
    injection Hpt as <-. eexists; reflexivity. }
  assert (Hcase : f1 = [] \/ length f0 = 2%nat).
  { destruct f1 as [|y f1']; [left; reflexivity|right]. simpl in Hlen.
    destruct (decide (length f0 < 2)%nat).
    - destruct (Hfill (length f0) ltac:(lia)) as [z Hz]. unfold rail_cell in Hz.
      rewrite Nat.ltb_irrefl, (proj2 (Nat.leb_gt 2 (length f0)) ltac:(lia)) in Hz.
      discriminate Hz.
    - destruct (decide (length f0 = 2%nat)) as [E|]; [exact E|].
      destruct (Hfill (n - 1)%nat ltac:(lia)) as [z Hz]. unfold rail_cell in Hz.
      rewrite (proj2 (Nat.ltb_ge (n - 1) (length f0)) ltac:(lia)),
        (proj2 (Nat.leb_le 2 (n - 1)) ltac:(lia)) in Hz.
      rewrite lookup_ge_None_2 in Hz by (simpl; lia). discriminate Hz. }
  split; [exact Hk|]. split; [exact Hf|]. split; [|exact Hcase].
  assert (Hl'len : length l' = n).
  { rewrite <- (length_fmap Some l'), <- Hl. apply rail_layout_length. }
  apply list_eq. intros j. destruct (decide (j < n)%nat) as [Hj|Hj].
  - specialize (Hpt j Hj). destruct (l' !! j) as [z|] eqn:Ez; [|discriminate Hpt].
    injection Hpt as Hz. unfold rail_cell in Hz. symmetry.
    destruct (j <? length f0)%nat eqn:E1.
    + apply Nat.ltb_lt in E1. rewrite lookup_app_l by exact E1. exact (eq_sym Hz).
    + apply Nat.ltb_ge in E1. rewrite lookup_app_r by exact E1.
      destruct (2 <=? j)%nat eqn:E2; [|discriminate Hz]. apply Nat.leb_le in E2.
      destruct Hcase as [Hn1|H2].
      * rewrite Hn1 in Hz. rewrite lookup_nil in Hz. discriminate Hz.
      * rewrite H2. exact (eq_sym Hz).
  - rewrite !lookup_ge_None_2; [reflexivity| |lia].
    rewrite length_app. lia.
Qed.

Definition rail_e : fi_info := {| info_id := 4; dev_name := "rdmap48s27" |}.

(** Five rails whose GUIDs end in 01, 00, 01, 00, 00. *)
Definition guid_fs_10100 : guid_fs := fun dev =>
  if String.eqb dev "rdmap16s27" then Some "0000:0000:0000:0001"%string
  else if String.eqb dev "rdmap17s27" then Some "0000:0000:0000:0000"%string
  else if String.eqb dev "rdmap32s27" then Some "0000:0000:0000:0001"%string
  else if String.eqb dev "rdmap33s27" then Some "0000:0000:0000:0000"%string
  else if String.eqb dev "rdmap48s27" then Some "0000:0000:0000:0000"%string
  else None.

(** When the assignment loop completes and the list is relinked, the new
    list is the VF-0 rails followed by the VF-1 rails of the first
    [num_rails] descriptors, each group in discovery order (a stable
    partition); VF-1 rails occur only when exactly two rails are VF-0. *)
Theorem platform_sort_rails_stable_partition (fs : guid_fs) (l : list fi_info)
  (num_rails : Z) (arr : list (option fi_info)) (l' : list fi_info) :
  0 < num_rails ->
  sort_rails_core fs l num_rails = SortFilled arr ->
  platform_sort_rails fs l num_rails = Some l' ->
  l' = vf_filter fs 0 (take (Z.to_nat num_rails) l) ++
       vf_filter fs 1 (take (Z.to_nat num_rails) l) /\
  (vf_filter fs 1 (take (Z.to_nat num_rails) l) = [] \/
   length (vf_filter fs 0 (take (Z.to_nat num_rails) l)) = 2%nat).
Proof.
  intros Hn Hc Hs. unfold platform_sort_rails in Hs.
  rewrite (proj2 (Z.leb_gt _ _) Hn), Hc in Hs.
  destruct (sort_core_partition fs l num_rails arr l' Hc Hs) as (_ & _ & Hl & Hcase).
  split; [exact Hl|exact Hcase].
Qed.

Lemma platform_sort_rails_stable_partition_witness :
  platform_sort_rails guid_fs_10100 [rail_a; rail_b; rail_c; rail_d; rail_e] 4 =
    Some [rail_b; rail_d; rail_a; rail_c] /\
  [rail_b; rail_d; rail_a; rail_c] =
    vf_filter guid_fs_10100 0 (take 4 [rail_a; rail_b; rail_c; rail_d; rail_e]) ++
    vf_filter guid_fs_10100 1 (take 4 [rail_a; rail_b; rail_c; rail_d; rail_e]) /\
  (vf_filter guid_fs_10100 1 (take 4 [rail_a; rail_b; rail_c; rail_d; rail_e]) = [] \/
   length (vf_filter guid_fs_10100 0 (take 4 [rail_a; rail_b; rail_c; rail_d; rail_e])) = 2%nat).
Proof.
  assert (Hs : platform_sort_rails guid_fs_10100 [rail_a; rail_b; rail_c; rail_d; rail_e] 4 =
                 Some [rail_b; rail_d; rail_a; rail_c]) by (vm_compute; reflexivity).
  split; [exact Hs|].
  apply (platform_sort_rails_stable_partition guid_fs_10100 _ 4
           [Some rail_b; Some rail_d; Some rail_a; Some rail_c]); [lia| |exact Hs].
  vm_compute. reflexivity.
Defined.

(** Whatever happens, the caller's list is either left as it was or
    replaced by a reordering of its first [num_rails] descriptors; the
    descriptors after them are unlinked. *)
Theorem platform_sort_rails_permutation (fs : guid_fs) (l : list fi_info) (num_rails : Z)
  (l' : list fi_info) :
  platform_sort_rails fs l num_rails = Some l' ->
  l' = l \/
  (Permutation l' (take (Z.to_nat num_rails) l) /\ length l' = Z.to_nat num_rails).
Proof.
  intros Hs. unfold platform_sort_rails in Hs.
  destruct (num_rails <=? 0); [left; injection Hs as <-; reflexivity|].
  destruct (sort_rails_core fs l num_rails) as [| |arr] eqn:Hc.
  - left. injection Hs as <-. reflexivity.
  - discriminate Hs.
  - right. destruct (sort_core_partition fs l num_rails arr l' Hc Hs) as (Hk & Hf & Hl & _).
    rewrite Hl. split.
    + apply vf_filter_perm, Hf.
    + rewrite (Permutation_length (vf_filter_perm fs _ Hf)), length_take. lia.
Qed.

Lemma platform_sort_rails_permutation_witness :
  [rail_b; rail_d; rail_a; rail_c] = [rail_a; rail_b; rail_c; rail_d; rail_e] \/
  (Permutation [rail_b; rail_d; rail_a; rail_c] (take 4 [rail_a; rail_b; rail_c; rail_d; rail_e]) /\
   length [rail_b; rail_d; rail_a; rail_c] = 4%nat).
Proof.
  apply (platform_sort_rails_permutation guid_fs_10100 _ 4). vm_compute. reflexivity.
Defined.

(** With one or two rails, a first descriptor of VF index 1 is assigned
    slot 2, past the end of [sorted_info_array]: the call is undefined. *)
Theorem platform_sort_rails_vf1_out_of_bounds (fs : guid_fs) (x : fi_info)
  (l : list fi_info) (num_rails : Z) :
  0 < num_rails <= 2 -> get_rail_vf_idx fs x = 1 ->
  platform_sort_rails fs (x :: l) num_rails = None.
Proof.
  intros Hn Hx. unfold platform_sort_rails, sort_rails_core.
  rewrite (proj2 (Z.leb_gt _ _) (proj1 Hn)).
  assert (num_rails = 1 \/ num_rails = 2) as [-> | ->] by lia;
    [change (Z.to_nat 1) with 1%nat | change (Z.to_nat 2) with 2%nat];
    simpl; rewrite Hx; reflexivity.
Qed.

Lemma platform_sort_rails_vf1_out_of_bounds_witness :
  platform_sort_rails guid_fs_10100 [rail_a; rail_b] 2 = None.
Proof.
  apply platform_sort_rails_vf1_out_of_bounds; [lia|]. vm_compute. reflexivity.
Defined.

(** ** Platform initialisation: the environment it leaves *)

Lemma setenv_lookup_ne (n v : string) (ow : bool) (e : gmap string string) (k : string) :
  k <> n -> setenv n v ow e !! k = e !! k.
Proof.
  intros Hk. unfold setenv. destruct ow; [apply lookup_insert_ne; congruence|].
  destruct (e !! n); [reflexivity|]. apply lookup_insert_ne. congruence.
Qed.

Lemma setenv_lookup_unset (n v : string) (ow : bool) (e : gmap string string) :
  e !! n = None -> setenv n v ow e !! n = Some v.
Proof.
  intros Hn. unfold setenv. destruct ow; [apply lookup_insert_eq|].
  rewrite Hn. apply lookup_insert_eq.
Qed.

Lemma setenv_keep_set (n v : string) (e : gmap string string) (w : string) :
  e !! n = Some w -> setenv n v false e = e.
Proof. intros Hn. unfold setenv. rewrite Hn. reflexivity. Qed.

Lemma setenv_lookup_keep (n v : string) (e : gmap string string) :
  setenv n v false e !! n = Some (default v (e !! n)).
Proof.
  unfold setenv. destruct (e !! n) eqn:E; [exact E|]. apply lookup_insert_eq.
Qed.

Lemma set_fork_safe_lookup_ne (i : init_input) (e : gmap string string) (k : string) :
  k <> fork_safe_var_name i -> set_fork_safe i e !! k = e !! k.
Proof.
  intros Hk. unfold set_fork_safe. destruct (e !! fork_safe_var_name i); [reflexivity|].
  apply setenv_lookup_ne, Hk.
Qed.

Lemma set_fork_safe_lookup (i : init_input) (e : gmap string string) :
  set_fork_safe i e !! fork_safe_var_name i = Some (default "1"%string (e !! fork_safe_var_name i)).
Proof.
  unfold set_fork_safe. destruct (e !! fork_safe_var_name i) eqn:E; [exact E|].
  apply setenv_lookup_unset, E.
Qed.

Lemma set_fork_safe_set (i : init_input) (e : gmap string string) (w : string) :
  e !! fork_safe_var_name i = Some w -> set_fork_safe i e = e.
Proof. intros H. unfold set_fork_safe. rewrite H. reflexivity. Qed.

Definition nvls_value (i : init_input) : option string :=
  match nccl_get_version i with
  | Some (true, version) => if version <? 21805 then Some "0"%string else None
  | _ => None
  end.

Lemma configure_nvls_option_lookup_ne (i : init_input) (e : gmap string string) (k : string) :
  k <> "NCCL_NVLS_ENABLE"%string -> snd (configure_nvls_option i e) !! k = e !! k.
Proof.
  intros Hk. unfold configure_nvls_option.
  destruct (e !! "NCCL_NVLS_ENABLE"%string); [reflexivity|].
  destruct (nccl_get_version i) as [[[] v]|]; try reflexivity.
  destruct (v <? 21805); [|reflexivity]. apply setenv_lookup_ne, Hk.
Qed.

Lemma configure_nvls_option_lookup (i : init_input) (e : gmap string string) :
  e !! "NCCL_NVLS_ENABLE"%string = None ->
  snd (configure_nvls_option i e) !! "NCCL_NVLS_ENABLE"%string = nvls_value i.
Proof.
  intros H. unfold configure_nvls_option, nvls_value. rewrite H.
  destruct (nccl_get_version i) as [[[] v]|]; try exact H.
  destruct (v <? 21805); [|exact H]. apply setenv_lookup_unset, H.
Qed.

Lemma configure_nvls_option_code (i : init_input) (e : gmap string string) :
  fst (configure_nvls_option i e) = 0 \/
  (fst (configure_nvls_option i e) = - ENOTSUP /\ e !! "NCCL_NVLS_ENABLE"%string = None /\
   exists v, nccl_get_version i = Some (false, v)).
Proof.
  unfold configure_nvls_option. destruct (e !! "NCCL_NVLS_ENABLE"%string) eqn:E; [left; reflexivity|].
  destruct (nccl_get_version i) as [[[] v]|]; [| |left; reflexivity].
  - left. destruct (v <? 21805); reflexivity.
  - right. split; [reflexivity|]. split; [reflexivity|]. exists v. reflexivity.
Qed.

Definition force_flush_value (pd : option ec2_platform_data) : option string :=
  match pd with
  | Some p => if net_flush_required p then None else Some "0"%string
  | None => None
  end.

Lemma set_force_flush_lookup_ne (pd : option ec2_platform_data) (e : gmap string string) (k : string) :
  k <> "NCCL_NET_FORCE_FLUSH"%string -> set_force_flush pd e !! k = e !! k.
Proof.
  intros Hk. unfold set_force_flush. destruct pd as [p|]; [|reflexivity].
  destruct (negb (net_flush_required p)); [|reflexivity].
  destruct (e !! "NCCL_NET_FORCE_FLUSH"%string); [reflexivity|]. apply setenv_lookup_ne, Hk.
Qed.

Lemma set_force_flush_lookup (pd : option ec2_platform_data) (e : gmap string string) :
  e !! "NCCL_NET_FORCE_FLUSH"%string = None ->
  set_force_flush pd e !! "NCCL_NET_FORCE_FLUSH"%string = force_flush_value pd.
Proof.
  intros H. unfold set_force_flush, force_flush_value. destruct pd as [p|]; [|exact H].
  destruct (net_flush_required p); cbn [negb]; [exact H|]. rewrite H. apply setenv_lookup_unset, H.
Qed.

Lemma set_chunk_sizes_lookup_ne (e : gmap string string) (k : string) :
  k <> "NCCL_NVLS_CHUNKSIZE"%string -> k <> "NCCL_NVLSTREE_MAX_CHUNKSIZE"%string ->
  set_chunk_sizes e !! k = e !! k.
Proof.
  intros H1 H2. unfold set_chunk_sizes. rewrite !setenv_lookup_ne by assumption. reflexivity.
Qed.

Definition topology_value (i : init_input) : option string :=
  match init_platform_data i with
  | Some p =>
      match topology p with
      | Some t => Some (String.append (xml_dir i) (String.append "/" t))
      | None => None
      end
  | None => None
  end.

Lemma set_topology_lookup_ne (i : init_input) (e : gmap string string) (k : string) :
  k <> "NCCL_TOPO_FILE"%string -> snd (set_topology i e) !! k = e !! k.
Proof.
  intros Hk. unfold set_topology. destruct (e !! "NCCL_TOPO_FILE"%string); [reflexivity|].
  destruct (init_platform_data i) as [p|]; [|reflexivity].
  destruct (topology p) as [t|]; [|reflexivity].
  destruct (_ <=? _)%nat; [reflexivity|]. apply setenv_lookup_ne, Hk.
Qed.

Lemma set_topology_lookup (i : init_input) (e : gmap string string) :
  e !! "NCCL_TOPO_FILE"%string = None -> fst (set_topology i e) = 0 ->
  snd (set_topology i e) !! "NCCL_TOPO_FILE"%string = topology_value i.
Proof.
  intros H Hr. unfold set_topology, topology_value in *. rewrite H in *.
  destruct (init_platform_data i) as [p|]; [|exact H].
  destruct (topology p) as [t|]; [|exact H].
  destruct (_ <=? _)%nat; [discriminate Hr|]. apply setenv_lookup_unset, H.
Qed.

Lemma set_topology_code (i : init_input) (e : gmap string string) :
  fst (set_topology i e) = 0 \/
  (fst (set_topology i e) = - ENOMEM /\ e !! "NCCL_TOPO_FILE"%string = None /\
   exists p t, init_platform_data i = Some p /\ topology p = Some t /\
     (PATH_MAX <= String.length (String.append (xml_dir i) (String.append "/" t)))%nat).
Proof.
  unfold set_topology. destruct (e !! "NCCL_TOPO_FILE"%string) eqn:E; [left; reflexivity|].
  destruct (init_platform_data i) as [p|]; [|left; reflexivity].
  destruct (topology p) as [t|] eqn:Et; [|left; reflexivity].
  destruct (PATH_MAX <=? _)%nat eqn:Hl; [|left; reflexivity].
  right. split; [reflexivity|]. split; [reflexivity|]. exists p, t.
  split; [reflexivity|]. split; [exact Et|]. apply Nat.leb_le, Hl.
Qed.

Lemma fork_safe_var_name_cases (i : init_input) :
  fork_safe_var_name i = "FI_EFA_FORK_SAFE"%string \/
  fork_safe_var_name i = "RDMAV_FORK_SAFE"%string.
Proof. unfold fork_safe_var_name. destruct (_ || _); [left|right]; reflexivity. Qed.

Ltac env_key_ne :=
  match goal with
  | |- ?k <> fork_safe_var_name ?i =>
      let H := fresh in let E := fresh in
      intros H; destruct (fork_safe_var_name_cases i) as [E|E]; rewrite E in H; discriminate H
  | |- fork_safe_var_name ?i <> ?k =>
      let H := fresh in let E := fresh in
      intros H; destruct (fork_safe_var_name_cases i) as [E|E]; rewrite E in H; discriminate H
  | |- _ <> _ => discriminate
  end.

Ltac env_lookup_ne :=
  rewrite ?set_topology_lookup_ne, ?set_chunk_sizes_lookup_ne, ?set_force_flush_lookup_ne,
    ?configure_nvls_option_lookup_ne, ?set_fork_safe_lookup_ne by env_key_ne.

Lemma set_chunk_sizes_lookup_tree (e : gmap string string) :
  set_chunk_sizes e !! "NCCL_NVLSTREE_MAX_CHUNKSIZE"%string =
  Some (default "524288"%string (e !! "NCCL_NVLSTREE_MAX_CHUNKSIZE"%string)).
Proof.
  unfold set_chunk_sizes. rewrite setenv_lookup_ne by discriminate. apply setenv_lookup_keep.
Qed.

Lemma set_chunk_sizes_lookup_nvls (e : gmap string string) :
  set_chunk_sizes e !! "NCCL_NVLS_CHUNKSIZE"%string =
  Some (default "524288"%string (e !! "NCCL_NVLS_CHUNKSIZE"%string)).
Proof.
  unfold set_chunk_sizes. rewrite setenv_lookup_keep, setenv_lookup_ne by discriminate.
  reflexivity.
Qed.

(** After a successful [platform_init]: the fork-safety variable and the
    two chunk sizes are set (to "1" and "524288" unless already set); and
    NCCL_NVLS_ENABLE, NCCL_NET_FORCE_FLUSH and NCCL_TOPO_FILE, when unset
    before, are "0" for an NCCL older than 2.18.5, "0" on a platform that
    needs no flush, and XML_DIR "/" topology, and stay unset otherwise. *)
Theorem platform_init_env_success (i : init_input) (st : init_state) :
  fst (platform_init i st) = 0 ->
  let e := env st in
  let e' := env (snd (platform_init i st)) in
  e' !! fork_safe_var_name i = Some (default "1"%string (e !! fork_safe_var_name i)) /\
  e' !! "NCCL_NVLSTREE_MAX_CHUNKSIZE"%string =
    Some (default "524288"%string (e !! "NCCL_NVLSTREE_MAX_CHUNKSIZE"%string)) /\
  e' !! "NCCL_NVLS_CHUNKSIZE"%string =
    Some (default "524288"%string (e !! "NCCL_NVLS_CHUNKSIZE"%string)) /\
  (e !! "NCCL_NVLS_ENABLE"%string = None -> e' !! "NCCL_NVLS_ENABLE"%string = nvls_value i) /\
  (e !! "NCCL_NET_FORCE_FLUSH"%string = None ->
     e' !! "NCCL_NET_FORCE_FLUSH"%string = force_flush_value (init_platform_data i)) /\
  (e !! "NCCL_TOPO_FILE"%string = None -> e' !! "NCCL_TOPO_FILE"%string = topology_value i).
Proof.
  intros H0 e e'. unfold e' in *. clear e'.
  pose proof (platform_init_steps i st) as Hs.
  destruct (env st !! "FI_PROVIDER"%string); cbn zeta in Hs.
  all: destruct Hs as [(Hn & Hp) | [(_ & Ht & Hp) | (Hn & Ht & ->)]];
         [rewrite Hp in H0; contradiction|rewrite Hp in H0; contradiction|].
  all: cbn [snd]; unfold init_defaults, set_env; cbn [env].
  all: split; [env_lookup_ne; apply set_fork_safe_lookup|].
  all: split; [env_lookup_ne; rewrite set_chunk_sizes_lookup_tree; env_lookup_ne; reflexivity|].
  all: split; [env_lookup_ne; rewrite set_chunk_sizes_lookup_nvls; env_lookup_ne; reflexivity|].
  all: split; [intros Hu; env_lookup_ne; apply configure_nvls_option_lookup;
               env_lookup_ne; exact Hu|].
  all: split; [intros Hu; env_lookup_ne; apply set_force_flush_lookup;
               env_lookup_ne; exact Hu|].
  all: intros Hu; apply set_topology_lookup; [env_lookup_ne; exact Hu|exact Ht].
Qed.

Lemma platform_init_env_success_witness :
  let e := env st_dup0 in
  let e' := env (snd (platform_init init_p3dn st_dup0)) in
  e' !! fork_safe_var_name init_p3dn =
    Some (default "1"%string (e !! fork_safe_var_name init_p3dn)) /\
  e' !! "NCCL_NVLSTREE_MAX_CHUNKSIZE"%string =
    Some (default "524288"%string (e !! "NCCL_NVLSTREE_MAX_CHUNKSIZE"%string)) /\
  e' !! "NCCL_NVLS_CHUNKSIZE"%string =
    Some (default "524288"%string (e !! "NCCL_NVLS_CHUNKSIZE"%string)) /\
  (e !! "NCCL_NVLS_ENABLE"%string = None ->
     e' !! "NCCL_NVLS_ENABLE"%string = nvls_value init_p3dn) /\
  (e !! "NCCL_NET_FORCE_FLUSH"%string = None ->
     e' !! "NCCL_NET_FORCE_FLUSH"%string = force_flush_value (init_platform_data init_p3dn)) /\
  (e !! "NCCL_TOPO_FILE"%string = None ->
     e' !! "NCCL_TOPO_FILE"%string = topology_value init_p3dn).
Proof. apply platform_init_env_success. vm_compute. reflexivity. Defined.

(** When FI_PROVIDER names a provider other than "efa", [platform_init]
    changes neither [*provider_filter] nor the selected protocol. *)
Theorem platform_init_other_provider (i : init_input) (st : init_state) (p : string) :
  env st !! "FI_PROVIDER"%string = Some p -> strcmp_eq p "efa" = false ->
  provider_filter (snd (platform_init i st)) = provider_filter st /\
  nccl_ofi_selected_protocol (snd (platform_init i st)) = nccl_ofi_selected_protocol st.
Proof.
  intros Hp He. pose proof (platform_init_steps i st) as Hs.
  rewrite Hp in Hs. cbn zeta in Hs. rewrite He in Hs.
  destruct Hs as [(_ & ->) | [(_ & _ & ->) | (_ & _ & ->)]]; cbn [snd];
    [split; reflexivity|split; reflexivity|].
  unfold init_defaults, set_env. cbn. split; [reflexivity|].
  destruct (init_platform_data i); [|reflexivity]. destruct (p_protocol i); reflexivity.
Qed.

Definition st_tcp : init_state :=
  {| env := <["FI_PROVIDER" := "tcp"]> ∅; provider_filter := None; nic_dup_conns := 0;
     net_latency := 0; nccl_ofi_selected_protocol := "SENDRECV";
     domain_per_thread := 0 |}%string.

Lemma platform_init_other_provider_witness :
  provider_filter (snd (platform_init init_p3dn st_tcp)) = provider_filter st_tcp /\
  nccl_ofi_selected_protocol (snd (platform_init init_p3dn st_tcp)) =
    nccl_ofi_selected_protocol st_tcp.
Proof. apply (platform_init_other_provider _ _ "tcp"); reflexivity. Defined.

Lemma configure_nvls_option_stable (i : init_input) (e e' : gmap string string) :
  fst (configure_nvls_option i e) = 0 ->
  e' !! "NCCL_NVLS_ENABLE"%string = snd (configure_nvls_option i e) !! "NCCL_NVLS_ENABLE"%string ->
  configure_nvls_option i e' = (0, e').
Proof.
  unfold configure_nvls_option. destruct (e !! "NCCL_NVLS_ENABLE"%string) eqn:E; cbn [fst snd].
  - intros _ H. rewrite H, E. reflexivity.
  - destruct (nccl_get_version i) as [[[|] v]|]; cbn [fst snd].
    + destruct (v <? 21805); cbn [fst snd]; intros _ H.
      * unfold setenv in H. rewrite lookup_insert_eq in H. rewrite H. reflexivity.
      * rewrite H, E. reflexivity.
    + unfold ENOTSUP. lia.
    + intros _ H. rewrite H, E. reflexivity.
Qed.

Lemma set_force_flush_stable (pd : option ec2_platform_data) (e e' : gmap string string) :
  e' !! "NCCL_NET_FORCE_FLUSH"%string = set_force_flush pd e !! "NCCL_NET_FORCE_FLUSH"%string ->
  set_force_flush pd e' = e'.
Proof.
  unfold set_force_flush. destruct pd as [p|]; [|reflexivity].
  destruct (negb (net_flush_required p)); [|reflexivity].
  destruct (e !! "NCCL_NET_FORCE_FLUSH"%string) eqn:E; intros H.
  - rewrite H, E. reflexivity.
  - unfold setenv in H. rewrite E, lookup_insert_eq in H. rewrite H. reflexivity.
Qed.

Lemma set_chunk_sizes_stable (e : gmap string string) :
  is_Some (e !! "NCCL_NVLSTREE_MAX_CHUNKSIZE"%string) ->
  is_Some (e !! "NCCL_NVLS_CHUNKSIZE"%string) ->
  set_chunk_sizes e = e.
Proof.
  intros [a Ha] [b Hb]. unfold set_chunk_sizes, setenv. rewrite Ha, Hb. reflexivity.
Qed.

Lemma set_topology_stable (i : init_input) (e e' : gmap string string) :
  fst (set_topology i e) = 0 ->
  e' !! "NCCL_TOPO_FILE"%string = snd (set_topology i e) !! "NCCL_TOPO_FILE"%string ->
  set_topology i e' = (0, e').
Proof.
  unfold set_topology. destruct (e !! "NCCL_TOPO_FILE"%string) eqn:E; cbn [fst snd].
  - intros _ H. rewrite H, E. reflexivity.
  - destruct (init_platform_data i) as [p|]; [destruct (topology p) as [t|]|]; cbn zeta.
    + destruct (PATH_MAX <=? _)%nat; cbn [fst snd].
      * unfold ENOMEM. lia.
      * intros _ H. unfold setenv in H. rewrite lookup_insert_eq in H. rewrite H. reflexivity.
    + intros _ H. cbn [snd] in H. rewrite H, E. reflexivity.
    + intros _ H. cbn [snd] in H. rewrite H, E. reflexivity.
Qed.

Lemma set_fork_safe_stable (i : init_input) (e : gmap string string) :
  is_Some (e !! fork_safe_var_name i) -> set_fork_safe i e = e.
Proof. intros [a Ha]. unfold set_fork_safe. rewrite Ha. reflexivity. Qed.

(** A successful [platform_init] is idempotent: run again on the state it
    leaves, it returns 0 and leaves that state unchanged (every variable it
    sets is only set when unset, and the defaults it computes depend only
    on the platform and on values it keeps). *)
Theorem platform_init_idempotent (i : init_input) (st : init_state) :
  fst (platform_init i st) = 0 ->
  platform_init i (snd (platform_init i st)) = platform_init i st.
Proof.
  intros H0. pose proof (platform_init_steps i st) as Hs.
  destruct (env st !! "FI_PROVIDER"%string) as [p|] eqn:Ep; cbn zeta in Hs.
  all: destruct Hs as [(Hn & Hp) | [(Hn & Ht & Hp) | (Hn & Ht & Hp)]];
         rewrite Hp in H0 |- *; cbn [fst] in H0; try contradiction.
  all: cbn [snd]; unfold platform_init at 1.
  all: cbn [env provider_filter nic_dup_conns net_latency nccl_ofi_selected_protocol
            domain_per_thread init_defaults set_env].
  all: set (e2 := (configure_nvls_option i (set_fork_safe i (env st))).2) in *.
  all: set (e5 := set_chunk_sizes (set_force_flush (init_platform_data i) e2)) in *.
  all: set (e6 := (set_topology i e5).2) in *.
  all: assert (HF : e6 !! "FI_PROVIDER"%string = env st !! "FI_PROVIDER"%string)
         by (unfold e6, e5, e2; env_lookup_ne; reflexivity).
  all: rewrite HF, Ep.
  all: rewrite (set_fork_safe_stable i e6)
         by (unfold e6, e5, e2; env_lookup_ne; rewrite set_fork_safe_lookup; eexists; reflexivity).
  all: rewrite (configure_nvls_option_stable i (set_fork_safe i (env st)) e6 Hn)
         by (unfold e6, e5; env_lookup_ne; reflexivity).
  all: cbn [negb Z.eqb].
  all: rewrite (set_force_flush_stable (init_platform_data i) e2 e6)
         by (unfold e6, e5; env_lookup_ne; reflexivity).
  all: rewrite (set_chunk_sizes_stable e6)
         by (unfold e6; env_lookup_ne; unfold e5;
             first [rewrite set_chunk_sizes_lookup_tree | rewrite set_chunk_sizes_lookup_nvls];
             eexists; reflexivity).
  all: rewrite (set_topology_stable i e5 e6 Ht eq_refl).
  all: cbn [negb Z.eqb].
  all: f_equal; unfold init_defaults, set_env;
         cbn [env provider_filter nic_dup_conns net_latency nccl_ofi_selected_protocol
              domain_per_thread].
  all: destruct (init_platform_data i) as [q|];
         [|destruct (p_net_latency i <? 0); reflexivity].
  all: destruct (nic_dup_conns st =? 0) eqn:D;
         [destruct (default_dup_conns q =? 0) eqn:D2|rewrite D].
  all: destruct (p_net_latency i <? 0), (p_protocol i); try reflexivity.
  all: try (destruct (strcmp_eq p "efa"); reflexivity).
  all: apply Z.eqb_eq in D2; rewrite D2; reflexivity.
Qed.

Lemma platform_init_idempotent_witness :
  fst (platform_init init_p3dn st_dup0) = 0 /\
  platform_init init_p3dn (snd (platform_init init_p3dn st_dup0)) =
  platform_init init_p3dn st_dup0.
Proof.
  split; [vm_compute; reflexivity|].
  apply platform_init_idempotent. vm_compute. reflexivity.
Defined.

(** [need_ordering] is only ever recorded on a configured domain. *)
Definition ordering_inv (s : neg_state) : Prop :=
  need_ordering s = true -> nccl_proto_configured s = true.

(** What one negotiation does to NCCL_PROTO, to the configured flag and
    to the ordering invariant, and when it runs [setenv]. *)
Lemma negotiate_facts (opt : inorder_opt) (o : ep_obs) (s : neg_state) :
  let '(r0, s', lgn) := negotiate opt o s in
  (env_nccl_proto s' = env_nccl_proto s \/
   (env_nccl_proto s = None /\ env_nccl_proto s' = Some "simple"%string /\
    In Ev_setenv_nccl_proto lgn)) /\
  (r0 = 0 -> nccl_proto_configured s' = true) /\
  (ordering_inv s -> ordering_inv s') /\
  (In Ev_setenv_nccl_proto lgn ->
     nccl_proto_configured s = false /\ env_nccl_proto s = None /\
     nccl_proto_configured s' = true /\ need_ordering s' = false /\
     (env_nccl_proto s' = None -> r0 = - ENOTSUP)).
Proof.
  destruct s as [c n e]. unfold negotiate, ordering_inv, configure_ep_inorder, configure_nccl_proto.
  cbn [nccl_proto_configured need_ordering env_nccl_proto].
  destruct c, n; cbn [orb negb andb];
  repeat match goal with
  | |- context [if ?b then _ else _] => destruct b eqn:?
  | |- context [match ?x with Some _ => _ | None => _ end] =>
      match x with context [match _ with _ => _ end] => fail 1 | _ => destruct x eqn:? end
  end; cbn; intuition (try discriminate; try congruence;
    try match goal with
        | H : ?x = 0, E : negb (?x =? 0) = true |- _ => rewrite H in E; discriminate E
        end).
Qed.

Lemma skip_state_env (skip : bool) (s : neg_state) :
  env_nccl_proto (if skip && negb (nccl_proto_configured s)
                  then {| nccl_proto_configured := true; need_ordering := false;
                          env_nccl_proto := env_nccl_proto s |}
                  else s) = env_nccl_proto s.
Proof. destruct (skip && _); reflexivity. Qed.

Lemma skip_state_inv (skip : bool) (s : neg_state) :
  ordering_inv s ->
  ordering_inv (if skip && negb (nccl_proto_configured s)
                then {| nccl_proto_configured := true; need_ordering := false;
                        env_nccl_proto := env_nccl_proto s |}
                else s).
Proof. intros H. destruct (skip && _); [intros _; reflexivity|exact H]. Qed.

(** NCCL_PROTO: a call either leaves it as it was or, when it was unset,
    sets it to "simple" (and then the call has run the [setenv]). *)
Theorem platform_config_endpoint_nccl_proto (d : ep_domain) (o : ep_obs) (s : neg_state)
  (r : Z) (s' : neg_state) (lg : list ep_event) :
  platform_config_endpoint d o s = Some (r, s', lg) ->
  env_nccl_proto s' = env_nccl_proto s \/
  (env_nccl_proto s = None /\ env_nccl_proto s' = Some "simple"%string /\
   In Ev_setenv_nccl_proto lg).
Proof.
  intros H. destruct (config_endpoint_cases d o s r s' lg H)
    as [(-> & _) | (opt & skip & r0 & lgn & _ & _ & _ & _ & _ & Hneg & _ & Hin & _)];
    [left; reflexivity|].
  pose proof (negotiate_facts opt o
    (if skip && negb (nccl_proto_configured s)
     then {| nccl_proto_configured := true; need_ordering := false;
             env_nccl_proto := env_nccl_proto s |}
     else s)) as Hf.
  rewrite Hneg, skip_state_env in Hf. destruct Hf as [[Hf|(He & He' & Hi)] _]; [left; exact Hf|].
  right. split; [exact He|]. split; [exact He'|]. apply Hin, Hi.
Qed.

(** On a non-null endpoint of the "efa" provider, a call that returns 0
    leaves the domain configured. *)
Theorem platform_config_endpoint_success_configured (d : ep_domain) (o : ep_obs)
  (s s' : neg_state) (lg : list ep_event) :
  endpoint_is_null o = false -> strcmp_eq (prov_name d) "efa" = true ->
  platform_config_endpoint d o s = Some (0, s', lg) ->
  nccl_proto_configured s' = true.
Proof.
  intros Hn Hp H. unfold platform_config_endpoint in H. rewrite Hn, Hp in H.
  cbn [negb] in H.
  destruct (gdr_check_fails d).
  { injection H as Hr _ _. unfold EINVAL in Hr. lia. }
  destruct (if strcasecmp_eq "RDMA" (selected_protocol d) && (disable_native_rdma_check d =? 0)
            then (validate_rdma_write (emulated_write_getopt o), [Ev_getopt_emulated_write])
            else (0, [])) as [vret lg0].
  destruct (negb (vret =? 0)) eqn:Ev.
  { injection H as Hr _ _. subst vret. discriminate Ev. }
  destruct (proto_optname (selected_protocol d)) as [opt|].
  2:{ injection H as Hr _ _. unfold EINVAL in Hr. lia. }
  destruct (p5_rdma_skip d s) as [skip|]; [|discriminate H].
  pose proof (negotiate_facts opt o
    (if skip && negb (nccl_proto_configured s)
     then {| nccl_proto_configured := true; need_ordering := false;
             env_nccl_proto := env_nccl_proto s |}
     else s)) as Hf.
  destruct (negotiate opt o _) as [[r0 s0] lgn].
  destruct Hf as (_ & Hc & _).
  destruct (negb (r0 =? 0)) eqn:Er.
  - injection H as Hr _ _. subst r0. discriminate Er.
  - apply negb_false_iff, Z.eqb_eq in Er.
    destruct (strcasecmp_eq "RDMA" (selected_protocol d)); injection H; intros; subst; auto.
Qed.

(** The domain never records [need_ordering] without being configured:
    a call keeps that invariant. *)
Theorem platform_config_endpoint_ordering_inv (d : ep_domain) (o : ep_obs) (s : neg_state)
  (r : Z) (s' : neg_state) (lg : list ep_event) :
  (need_ordering s = true -> nccl_proto_configured s = true) ->
  platform_config_endpoint d o s = Some (r, s', lg) ->
  need_ordering s' = true -> nccl_proto_configured s' = true.
Proof.
  intros Hinv H. destruct (config_endpoint_cases d o s r s' lg H)
    as [(-> & _) | (opt & skip & r0 & lgn & _ & _ & _ & _ & _ & Hneg & _ & _ & _)];
    [exact Hinv|].
  pose proof (negotiate_facts opt o
    (if skip && negb (nccl_proto_configured s)
     then {| nccl_proto_configured := true; need_ordering := false;
             env_nccl_proto := env_nccl_proto s |}
     else s)) as Hf.
  rewrite Hneg in Hf. destruct Hf as (_ & _ & Hi & _). apply Hi, skip_state_inv. exact Hinv.
Qed.

(** In a negotiation that runs [setenv("NCCL_PROTO", "simple", 0)], its
    outcome decides the result: on success NCCL_PROTO is "simple" and the
    negotiation returns 0, on failure NCCL_PROTO stays unset and it
    returns [-ENOTSUP]. *)
Lemma negotiate_setenv (opt : inorder_opt) (o : ep_obs) (s : neg_state) :
  let '(r0, s', lgn) := negotiate opt o s in
  In Ev_setenv_nccl_proto lgn ->
  (proto_setenv_ok o = true -> env_nccl_proto s' = Some "simple"%string /\ r0 = 0) /\
  (proto_setenv_ok o = false -> env_nccl_proto s' = None /\ r0 = - ENOTSUP).
Proof.
  destruct s as [c n e]. unfold negotiate, configure_ep_inorder, configure_nccl_proto.
  cbn [nccl_proto_configured need_ordering env_nccl_proto].
  destruct c, n; cbn [orb negb andb];
  repeat match goal with
  | |- context [if ?b then _ else _] => destruct b eqn:?
  | |- context [match ?x with Some _ => _ | None => _ end] =>
      match x with context [match _ with _ => _ end] => fail 1 | _ => destruct x eqn:? end
  end; cbn; intuition (try discriminate; try congruence;
    try match goal with
        | H : In Ev_setenv_nccl_proto _ |- _ =>
            repeat (destruct H as [H|H]; [discriminate H|]); destruct H
        end).
Qed.

(** A call runs [setenv("NCCL_PROTO", ...)] only on an unconfigured domain
    with NCCL_PROTO unset, and then records it configured and unordered;
    the [setenv]'s outcome decides NCCL_PROTO and, on failure, the result. *)
Lemma config_endpoint_setenv_facts (d : ep_domain) (o : ep_obs) (s : neg_state)
  (r : Z) (s' : neg_state) (lg : list ep_event) :
  platform_config_endpoint d o s = Some (r, s', lg) ->
  In Ev_setenv_nccl_proto lg ->
  nccl_proto_configured s = false /\ env_nccl_proto s = None /\
  nccl_proto_configured s' = true /\ need_ordering s' = false /\
  (proto_setenv_ok o = true -> env_nccl_proto s' = Some "simple"%string) /\
  (proto_setenv_ok o = false -> r = - ENOTSUP /\ env_nccl_proto s' = None).
Proof.
  intros H Hs. destruct (config_endpoint_cases d o s r s' lg H)
    as [(-> & Hl) | (opt & skip & r0 & lgn & _ & _ & _ & _ & _ & Hneg & Hl & _ & Hr)];
    [discriminate (Hl _ Hs)|].
  pose proof (negotiate_facts opt o
    (if skip && negb (nccl_proto_configured s)
     then {| nccl_proto_configured := true; need_ordering := false;
             env_nccl_proto := env_nccl_proto s |}
     else s)) as Hf.
  pose proof (negotiate_setenv opt o
    (if skip && negb (nccl_proto_configured s)
     then {| nccl_proto_configured := true; need_ordering := false;
             env_nccl_proto := env_nccl_proto s |}
     else s)) as Hv.
  rewrite Hneg in Hf, Hv. destruct Hf as (_ & _ & _ & Hf).
  destruct (Hl _ Hs) as [Hd|[Hi|Hd]]; [discriminate Hd| |discriminate Hd].
  destruct (Hf Hi) as (Hc & He & Hc' & Hn' & _).
  destruct (Hv Hi) as (Hok & Hko).
  destruct (skip && negb (nccl_proto_configured s)); [discriminate Hc|].
  do 4 (split; [assumption|]).
  split; [intros Ho; exact (proj1 (Hok Ho))|].
  intros Ho. destruct (Hko Ho) as (Hn & Hr0). split; [|exact Hn].
  rewrite Hr by (rewrite Hr0; unfold ENOTSUP; lia). exact Hr0.
Qed.

(** From a configured, unordered state, a sequence of calls keeps the
    state and never runs [setenv("NCCL_PROTO", ...)]. *)
Lemma run_config_endpoint_unordered_no_setenv (d : ep_domain) (os : list ep_obs)
  (s : neg_state) :
  nccl_proto_configured s = true -> need_ordering s = false -> p5_rdma_skip d s <> None ->
  exists outs, run_config_endpoint d os s = Some outs /\
    Forall (fun '(_, s'', lg') => s'' = s /\ ~ In Ev_setenv_nccl_proto lg') outs.
Proof.
  intros Hc Hn Hs. induction os as [|o r IH]; simpl.
  - exists []. split; [reflexivity|constructor].
  - destruct (config_endpoint_unordered d o s Hc Hn Hs) as (ret & lg & Hst & _ & _).
    rewrite Hst. destruct IH as (outs & Hrun & Hall). rewrite Hrun.
    eexists. split; [reflexivity|]. constructor; [|exact Hall].
    split; [reflexivity|]. intros Hi.
    destruct (config_endpoint_setenv_facts d o s ret s lg Hst Hi) as (Hc0 & _).
    congruence.
Qed.

(** An endpoint without in-order support on which [setenv] fails. *)
Definition obs_setenv_fails : ep_obs :=
  {| endpoint_is_null := false; emulated_write_getopt := (0, true, false);
     inorder_setopt_rc := - FI_EOPNOTSUPP; max_msg_setopt_rc := 0;
     proto_setenv_ok := false |}.

Lemma platform_config_endpoint_nccl_proto_witness :
  platform_config_endpoint dom_p4d_sendrecv (mk_obs (- FI_EOPNOTSUPP) false) neg_state0 =
    Some (0, {| nccl_proto_configured := true; need_ordering := false;
                env_nccl_proto := Some "simple"%string |},
          [Ev_setopt_inorder FI_OPT_EFA_SENDRECV_IN_ORDER_ALIGNED_128_BYTES;
           Ev_setenv_nccl_proto]) /\
  (Some "simple"%string = env_nccl_proto neg_state0 \/
   (env_nccl_proto neg_state0 = None /\ Some "simple"%string = Some "simple"%string /\
    In Ev_setenv_nccl_proto
      [Ev_setopt_inorder FI_OPT_EFA_SENDRECV_IN_ORDER_ALIGNED_128_BYTES;
       Ev_setenv_nccl_proto])).
Proof.
  split; [vm_compute; reflexivity|].
  apply (platform_config_endpoint_nccl_proto dom_p4d_sendrecv (mk_obs (- FI_EOPNOTSUPP) false)
           neg_state0 0 {| nccl_proto_configured := true; need_ordering := false;
                           env_nccl_proto := Some "simple"%string |}).
  vm_compute. reflexivity.
Defined.

Definition state_ordered_unset : neg_state :=
  {| nccl_proto_configured := true; need_ordering := true; env_nccl_proto := None |}.

Definition state_unordered_unset : neg_state :=
  {| nccl_proto_configured := true; need_ordering := false; env_nccl_proto := None |}.

Lemma platform_config_endpoint_success_configured_witness :
  endpoint_is_null (mk_obs 0 false) = false /\
  strcmp_eq (prov_name dom_p4d_sendrecv) "efa" = true /\
  platform_config_endpoint dom_p4d_sendrecv (mk_obs 0 false) neg_state0 =
    Some (0, state_ordered_unset,
          [Ev_setopt_inorder FI_OPT_EFA_SENDRECV_IN_ORDER_ALIGNED_128_BYTES]) /\
  nccl_proto_configured state_ordered_unset = true.
Proof.
  split; [reflexivity|]. split; [reflexivity|]. split; [vm_compute; reflexivity|].
  apply (platform_config_endpoint_success_configured dom_p4d_sendrecv (mk_obs 0 false)
           neg_state0 state_ordered_unset
           [Ev_setopt_inorder FI_OPT_EFA_SENDRECV_IN_ORDER_ALIGNED_128_BYTES]);
    [reflexivity|reflexivity|vm_compute; reflexivity].
Defined.

Lemma platform_config_endpoint_ordering_inv_witness :
  (need_ordering neg_state0 = true -> nccl_proto_configured neg_state0 = true) /\
  platform_config_endpoint dom_p4d_sendrecv (mk_obs 0 false) neg_state0 =
    Some (0, state_ordered_unset,
          [Ev_setopt_inorder FI_OPT_EFA_SENDRECV_IN_ORDER_ALIGNED_128_BYTES]) /\
  (need_ordering state_ordered_unset = true -> nccl_proto_configured state_ordered_unset = true).
Proof.
  split; [intros H; discriminate H|]. split; [vm_compute; reflexivity|].
  apply (platform_config_endpoint_ordering_inv dom_p4d_sendrecv (mk_obs 0 false)
           neg_state0 0 state_ordered_unset
           [Ev_setopt_inorder FI_OPT_EFA_SENDRECV_IN_ORDER_ALIGNED_128_BYTES]);
    [intros H; discriminate H|vm_compute; reflexivity].
Defined.

(** A call runs [setenv("NCCL_PROTO", ...)] only on an unconfigured domain
    with NCCL_PROTO unset, and then records it configured and unordered.
    If the [setenv] succeeds NCCL_PROTO becomes "simple"; if it fails the
    call returns [-ENOTSUP] and NCCL_PROTO stays unset, yet the domain stays
    recorded as configured and unordered: every later call on the domain
    keeps that state and none runs the [setenv] again. *)
Theorem platform_config_endpoint_setenv (d : ep_domain) (o : ep_obs) (s : neg_state)
  (r : Z) (s' : neg_state) (lg : list ep_event) (os : list ep_obs) :
  platform_config_endpoint d o s = Some (r, s', lg) ->
  In Ev_setenv_nccl_proto lg ->
  nccl_proto_configured s = false /\ env_nccl_proto s = None /\
  nccl_proto_configured s' = true /\ need_ordering s' = false /\
  (proto_setenv_ok o = true -> env_nccl_proto s' = Some "simple"%string) /\
  (proto_setenv_ok o = false -> r = - ENOTSUP /\ env_nccl_proto s' = None) /\
  exists outs, run_config_endpoint d os s' = Some outs /\
    Forall (fun '(_, s'', lg') => s'' = s' /\ ~ In Ev_setenv_nccl_proto lg') outs.
Proof.
  intros H Hs.
  destruct (config_endpoint_setenv_facts d o s r s' lg H Hs) as (Hc & He & Hc' & Hn' & Hok & Hko).
  do 6 (split; [assumption|]).
  apply run_config_endpoint_unordered_no_setenv; [exact Hc'|exact Hn'|].
  destruct (config_endpoint_cases d o s r s' lg H)
    as [(-> & _) | (opt & skip & r0 & lgn & _ & _ & _ & _ & Hp5 & _)];
    [rewrite Hc in Hc'; discriminate Hc'|].
  destruct (env_nccl_proto s') as [v|] eqn:Ev.
  - rewrite (p5_rdma_skip_env_set d s' v Ev). discriminate.
  - rewrite (p5_rdma_skip_env d s' s) by congruence. rewrite Hp5. discriminate.
Qed.

Lemma platform_config_endpoint_setenv_witness :
  platform_config_endpoint dom_p4d_sendrecv obs_setenv_fails neg_state0 =
    Some (- ENOTSUP, state_unordered_unset,
          [Ev_setopt_inorder FI_OPT_EFA_SENDRECV_IN_ORDER_ALIGNED_128_BYTES;
           Ev_setenv_nccl_proto]) /\
  nccl_proto_configured neg_state0 = false /\ env_nccl_proto neg_state0 = None /\
  nccl_proto_configured state_unordered_unset = true /\
  need_ordering state_unordered_unset = false /\
  (proto_setenv_ok obs_setenv_fails = true ->
     env_nccl_proto state_unordered_unset = Some "simple"%string) /\
  (proto_setenv_ok obs_setenv_fails = false ->
     - ENOTSUP = - ENOTSUP /\ env_nccl_proto state_unordered_unset = None) /\
  exists outs, run_config_endpoint dom_p4d_sendrecv [obs_setenv_fails; mk_obs 0 false]
                 state_unordered_unset = Some outs /\
    Forall (fun '(_, s'', lg') => s'' = state_unordered_unset /\
                                  ~ In Ev_setenv_nccl_proto lg') outs.
Proof.
  split; [vm_compute; reflexivity|].
  apply (platform_config_endpoint_setenv dom_p4d_sendrecv obs_setenv_fails neg_state0
           (- ENOTSUP) state_unordered_unset
           [Ev_setopt_inorder FI_OPT_EFA_SENDRECV_IN_ORDER_ALIGNED_128_BYTES;
            Ev_setenv_nccl_proto]);
    [vm_compute; reflexivity|right; left; reflexivity].
Defined.

(** With the RDMA protocol and the native RDMA check enabled, an "efa"
    endpoint whose [FI_OPT_EFA_EMULATED_WRITE] query fails, answers with
    the wrong size or reports emulated writes is rejected after that one
    query: the call returns the query's error code (or [-EINVAL]) and
    leaves the negotiation state alone. *)
Theorem platform_config_endpoint_rdma_write_check (d : ep_domain) (o : ep_obs) (s : neg_state)
  (rc : Z) (len_ok emulated : bool) :
  endpoint_is_null o = false -> strcmp_eq (prov_name d) "efa" = true ->
  gdr_check_fails d = false -> strcasecmp_eq "RDMA" (selected_protocol d) = true ->
  disable_native_rdma_check d = 0 ->
  emulated_write_getopt o = (rc, len_ok, emulated) ->
  rc <> 0 \/ len_ok = false \/ emulated = true ->
  platform_config_endpoint d o s =
    Some (if rc =? 0 then - EINVAL else rc, s, [Ev_getopt_emulated_write]).
Proof.
  intros Hn Hp Hg Hr Hd Ho Hbad. unfold platform_config_endpoint.
  rewrite Hn, Hp, Hg, Hr, Hd, Ho. cbn [negb andb Z.eqb].
  unfold validate_rdma_write.
  destruct (rc =? 0) eqn:E0.
  - apply Z.eqb_eq in E0. destruct Hbad as [H|[H|H]]; [contradiction|subst len_ok|subst emulated].
    + reflexivity.
    + destruct len_ok; reflexivity.
  - cbn [negb]. rewrite E0. reflexivity.
Qed.

Lemma platform_config_endpoint_rdma_write_check_witness :
  platform_config_endpoint dom_p4d_rdma (mk_obs 0 true) neg_state0 =
    Some (- EINVAL, neg_state0, [Ev_getopt_emulated_write]).
Proof.
  apply (platform_config_endpoint_rdma_write_check dom_p4d_rdma (mk_obs 0 true) neg_state0
           0 true true); try reflexivity.
  right; right; reflexivity.
Defined.
